(** * Receipt parsing of spendly-backend ([backend/app.py])

    A shallow embedding of [EnhancedReceiptOCR.smart_parse_receipt],
    [extract_items_smart] and [calculate_confidence], together with the
    part of Python's [re] and [str] they rely on.

    Text is a [string] of 8-bit characters read as the code points 0..255
    (Latin-1); Python's character classes are transcribed for that range.
    Integers are unbounded ([Z]), floats are binary64 ([PrimFloat]). *)

From Stdlib Require Import Bool Arith ZArith List Ascii String Lia.
From Stdlib Require Import Floats.

(* The weights 0.35 and 0.15 are read as the nearest binary64 values. *)
Set Warnings "-inexact-float".
Import ListNotations.

Local Open Scope string_scope.
Local Open Scope Z_scope.

(** ** Characters *)

Module Chr.

Definition code (c : ascii) : nat := nat_of_ascii c.

Definition between (lo hi : nat) (c : ascii) : bool :=
  (lo <=? code c)%nat && (code c <=? hi)%nat.

(** [\d]: a decimal digit. Below 256 these are '0'..'9' only. *)
Definition is_digit (c : ascii) : bool := between 48 57 c.

(** [\s], [str.strip()], [str.split()]: Unicode white space below 256:
    TAB LF VT FF CR, FS GS RS US, SPACE, NEL (0x85) and NBSP (0xA0). *)
Definition is_space (c : ascii) : bool :=
  between 9 13 c || between 28 32 c || (code c =? 133)%nat || (code c =? 160)%nat.

Definition is_upper (c : ascii) : bool := between 65 90 c.
Definition is_lower (c : ascii) : bool := between 97 122 c.

(** [\w]: alphanumeric or underscore. The non-ASCII entries are the Latin-1
    letters and the numeric characters (superscripts and fractions). *)
Definition is_word (c : ascii) : bool :=
  is_digit c || is_upper c || is_lower c || (code c =? 95)%nat
  || (code c =? 170)%nat || (code c =? 178)%nat || (code c =? 179)%nat
  || (code c =? 181)%nat || (code c =? 185)%nat || (code c =? 186)%nat
  || between 188 190 c || between 192 214 c || between 216 246 c
  || between 248 255 c.

(** [.]: any character but a line feed. *)
Definition is_any (c : ascii) : bool := negb (code c =? 10)%nat.

(** Lower-casing of an ASCII letter, as [re.IGNORECASE] compares a pattern
    letter with a subject character below 256. *)
Definition fold_case (c : ascii) : ascii :=
  if is_upper c then ascii_of_nat (code c + 32) else c.

(** [str.lower()] on one character below 256: ASCII and Latin-1 capitals
    (0xC0..0xDE but the multiplication sign 0xD7) move up by 32. *)
Definition lower (c : ascii) : ascii :=
  if is_upper c || (between 192 222 c && negb (code c =? 215)%nat)
  then ascii_of_nat (code c + 32) else c.

Definition eqb_nocase (x c : ascii) : bool :=
  Ascii.eqb (fold_case x) (fold_case c).

Definition one_of (l : list ascii) (c : ascii) : bool :=
  existsb (Ascii.eqb c) l.

End Chr.

(** ** Strings: the [str] methods the parser calls *)

Module Str.

Fixpoint rev_onto (s acc : string) : string :=
  match s with
  | EmptyString => acc
  | String c s' => rev_onto s' (String c acc)
  end.

Definition rev (s : string) : string := rev_onto s EmptyString.

Fixpoint filter (p : ascii -> bool) (s : string) : string :=
  match s with
  | EmptyString => EmptyString
  | String c s' => if p c then String c (filter p s') else filter p s'
  end.

Fixpoint map (f : ascii -> ascii) (s : string) : string :=
  match s with
  | EmptyString => EmptyString
  | String c s' => String (f c) (map f s')
  end.

Fixpoint forallb (p : ascii -> bool) (s : string) : bool :=
  match s with
  | EmptyString => true
  | String c s' => p c && forallb p s'
  end.

Definition is_empty (s : string) : bool :=
  match s with EmptyString => true | _ => false end.

(** [s[:n]] and [s[n:]] *)
Fixpoint take (n : nat) (s : string) : string :=
  match n, s with
  | S n', String c s' => String c (take n' s')
  | _, _ => EmptyString
  end.

Fixpoint drop (n : nat) (s : string) : string :=
  match n, s with
  | S n', String _ s' => drop n' s'
  | _, _ => s
  end.

Fixpoint lstrip (s : string) : string :=
  match s with
  | String c s' => if Chr.is_space c then lstrip s' else s
  | EmptyString => EmptyString
  end.

(** [s.strip()] *)
Definition strip (s : string) : string := rev (lstrip (rev (lstrip s))).

(** [s.split(sep)] for a one-character separator: the fields between the
    separators, empty ones included. *)
Fixpoint split_on (sep : ascii) (s : string) (cur : string) : list string :=
  match s with
  | EmptyString => [rev cur]
  | String c s' =>
      if Ascii.eqb c sep then rev cur :: split_on sep s' EmptyString
      else split_on sep s' (String c cur)
  end.

Definition split (sep : ascii) (s : string) : list string :=
  split_on sep s EmptyString.

(** [s.split()]: the maximal runs of characters that are not white space. *)
Fixpoint words_from (s : string) (cur : string) : list string :=
  match s with
  | EmptyString => if is_empty cur then [] else [rev cur]
  | String c s' =>
      if Chr.is_space c
      then (if is_empty cur then words_from s' EmptyString
            else rev cur :: words_from s' EmptyString)
      else words_from s' (String c cur)
  end.

Definition words (s : string) : list string := words_from s EmptyString.

(** [sep.join(l)] *)
Fixpoint join (sep : string) (l : list string) : string :=
  match l with
  | [] => EmptyString
  | [x] => x
  | x :: l' => x ++ sep ++ join sep l'
  end.

Fixpoint repeat (c : ascii) (n : nat) : string :=
  match n with
  | O => EmptyString
  | S n' => String c (repeat c n')
  end.

(** [s.zfill(w)]: pad with '0' on the left up to width [w]; the padding goes
    after a leading sign. *)
Definition zfill (w : nat) (s : string) : string :=
  let pad := repeat "0"%char (w - String.length s) in
  match s with
  | String c s' =>
      if Chr.one_of ["+"%char; "-"%char] c then String c (pad ++ s') else pad ++ s
  | EmptyString => pad
  end.

(** [s.lower()] *)
Definition lower (s : string) : string := map Chr.lower s.

(** [re.sub(r'[^\d]', '', s)] *)
Definition digits_only (s : string) : string := filter Chr.is_digit s.

Definition digit_value (c : ascii) : Z := Z.of_nat (Chr.code c) - 48.

Fixpoint int_acc (s : string) (acc : Z) : Z :=
  match s with
  | EmptyString => acc
  | String c s' => int_acc s' (10 * acc + digit_value c)
  end.

(** [int(s)] on a string of decimal digits; [ValueError] ([None]) on the
    empty string. Signs, blanks and underscores do not reach the calls the
    parser makes, whose arguments are runs of digits. CPython 3.11 and later
    also raise [ValueError] on a string of more than 4300 digits
    ([sys.int_max_str_digits]); this definition has no such limit, so a
    statement that follows [int] through a [try] is made for digit runs
    within that limit. *)
Definition int (s : string) : option Z :=
  if is_empty s || negb (forallb Chr.is_digit s) then None
  else Some (int_acc s 0).

End Str.

(** ** Regular expressions: the fragment of [re] the patterns use

    A backtracking matcher in continuation-passing style, with the priorities
    of [re]: alternatives left to right, greedy repetitions longest first,
    lazy ones shortest first, and [search] returning the leftmost match.
    Every unbounded repetition in the patterns repeats one character of a
    class, so [Rep] carries a class and recurses on the subject. *)

Module Re.

Inductive regex : Type :=
| Eps
| Lit (c : ascii)                  (* a literal, compared modulo case: every
                                      pattern with a letter is searched
                                      under [re.IGNORECASE] *)
| Cls (p : ascii -> bool)          (* one character of a class or set *)
| Cat (r1 r2 : regex)
| Alt (r1 r2 : regex)
| Opt (r : regex)                  (* [r?] *)
| Rep (lazy : bool) (lo : nat) (hi : option nat) (p : ascii -> bool)
                                   (* [p{lo,hi}], [p*], [p+], and [p*?], [p+?] *)
| Grp (n : nat) (r : regex)        (* the capturing group number [n] *)
| Bol                              (* [^] *)
| Eol.                             (* [$] *)

(** The groups matched so far: group number and matched text, the latest
    first. *)
Definition marks := list (nat * string).

Definition room (hi : option nat) : bool :=
  match hi with Some O => false | _ => true end.

Definition less (hi : option nat) : option nat := option_map Nat.pred hi.

Section Matcher.

Context {R : Type}.

Definition orelse (a b : option R) : option R :=
  match a with Some x => Some x | None => b end.

Fixpoint rep_greedy (p : ascii -> bool) (lo : nat) (hi : option nat)
    (i : nat) (s : string) (k : nat -> string -> option R) : option R :=
  let stop := match lo with O => k i s | S _ => None end in
  match s with
  | String c s' =>
      if p c && room hi
      then orelse (rep_greedy p (Nat.pred lo) (less hi) (S i) s' k) stop
      else stop
  | EmptyString => stop
  end.

Fixpoint rep_lazy (p : ascii -> bool) (lo : nat) (hi : option nat)
    (i : nat) (s : string) (k : nat -> string -> option R) : option R :=
  let more :=
    match s with
    | String c s' =>
        if p c && room hi
        then rep_lazy p (Nat.pred lo) (less hi) (S i) s' k
        else None
    | EmptyString => None
    end in
  match lo with
  | O => orelse (k i s) more
  | S _ => more
  end.

Fixpoint run (r : regex) (i : nat) (s : string) (m : marks)
    (k : nat -> string -> marks -> option R) : option R :=
  match r with
  | Eps => k i s m
  | Lit c =>
      match s with
      | String x s' => if Chr.eqb_nocase x c then k (S i) s' m else None
      | EmptyString => None
      end
  | Cls p =>
      match s with
      | String x s' => if p x then k (S i) s' m else None
      | EmptyString => None
      end
  | Cat r1 r2 => run r1 i s m (fun i' s' m' => run r2 i' s' m' k)
  | Alt r1 r2 => orelse (run r1 i s m k) (run r2 i s m k)
  | Opt r1 => orelse (run r1 i s m k) (k i s m)
  | Rep lazy lo hi p =>
      (if lazy then rep_lazy else rep_greedy) p lo hi i s
        (fun i' s' => k i' s' m)
  | Grp n r1 =>
      run r1 i s m (fun i' s' m' => k i' s' ((n, Str.take (i' - i) s) :: m'))
  | Bol => if (i =? 0)%nat then k i s m else None
  | Eol =>
      match s with
      | EmptyString => k i s m
      | String c EmptyString => if (Chr.code c =? 10)%nat then k i s m else None
      | _ => None
      end
  end.

End Matcher.

(** The match of [r] starting at offset [i], where [s] is the subject from
    [i] on; then the same one character further, up to the end. *)
Fixpoint search_from (r : regex) (i : nat) (s : string) : option marks :=
  match run r i s [] (fun _ _ m => Some m) with
  | Some m => Some m
  | None =>
      match s with
      | String _ s' => search_from r (S i) s'
      | EmptyString => None
      end
  end.

(** [match.group(n)] for a group that took part in the match, as every
    group of the patterns below does. *)
Fixpoint group (m : marks) (n : nat) : string :=
  match m with
  | [] => EmptyString
  | (g, text) :: m' => if (g =? n)%nat then text else group m' n
  end.

(** A compiled pattern: the expression and its number of groups. *)
Record pattern : Type := { expr : regex; ngroups : nat }.

(** [re.search(p, subject, re.IGNORECASE)] followed by [match.groups()]:
    [None] when nothing matches, else the texts of groups 1..ngroups. *)
Definition search (p : pattern) (subject : string) : option (list string) :=
  match search_from (expr p) 0 subject with
  | Some m => Some (List.map (group m) (seq 1 (ngroups p)))
  | None => None
  end.

(** [bool(re.search(...))] *)
Definition found (p : pattern) (subject : string) : bool :=
  match search p subject with Some _ => true | None => false end.

(** *** Pattern syntax *)

Fixpoint lit (s : string) : regex :=
  match s with
  | EmptyString => Eps
  | String c EmptyString => Lit c
  | String c s' => Cat (Lit c) (lit s')
  end.

Fixpoint cat (l : list regex) : regex :=
  match l with
  | [] => Eps
  | [r] => r
  | r :: l' => Cat r (cat l')
  end.

Fixpoint alt (l : list regex) : regex :=
  match l with
  | [] => Eps
  | [r] => r
  | r :: l' => Alt r (alt l')
  end.

Definition star (p : ascii -> bool) : regex := Rep false 0 None p.
Definition plus (p : ascii -> bool) : regex := Rep false 1 None p.
Definition plus_lazy (p : ascii -> bool) : regex := Rep true 1 None p.
Definition star_lazy (p : ascii -> bool) : regex := Rep true 0 None p.
Definition times (lo hi : nat) (p : ascii -> bool) : regex := Rep false lo (Some hi) p.
Definition at_least (lo : nat) (p : ascii -> bool) : regex := Rep false lo None p.

End Re.

(** ** Binary64 arithmetic, as Python's [float] *)

Module Flt.

(** [float(z)], as [int * float] converts its left operand: rounding to
    nearest, ties to even; [OverflowError] ([None]) past the largest float. *)
Definition of_int (z : Z) : option float :=
  match binary_normalize prec emax z 0 false with
  | S754_infinity _ => None
  | sf => Some (SF2Prim sf)
  end.

(** [z <= f] for an [int] and a [float]: Python compares the two values
    exactly, without rounding the integer. *)
Definition int_leb (z : Z) (f : float) : bool :=
  match Prim2SF f with
  | S754_zero _ => z <=? 0
  | S754_finite s m e =>
      let v := if s then Z.neg m else Z.pos m in
      if 0 <=? e then z <=? v * 2 ^ e else z * 2 ^ (- e) <=? v
  | S754_infinity s => negb s
  | S754_nan => false
  end.

(** [min(x, y)]: [y] when it is smaller, else the first argument. *)
Definition min (x y : float) : float := if PrimFloat.ltb y x then y else x.

End Flt.

(** ** The receipt parser: [EnhancedReceiptOCR] *)

Module Receipt.

Import Re.

Record LineItem : Type := { name : string; quantity : Z; price : Z }.

Record parsed : Type := {
  merchantName : string;
  date : string;
  items : list LineItem;
  total : Z;
  confidence : float;
  raw_text : string
}.

(** *** Character sets of the patterns *)

Definition date_sep : ascii -> bool := Chr.one_of ["/"; "-"; "."]%char.   (* [\/\-\.] *)
Definition amount_char (c : ascii) : bool :=                               (* [\d\.,] *)
  Chr.is_digit c || Chr.one_of ["."; ","]%char c.
Definition times_char : ascii -> bool := Chr.one_of ["x"; "X"; "*"]%char. (* [xX*] *)

(** [(?:RP\.?|IDR|Rp)] *)
Definition currency : regex :=
  alt [Cat (lit "RP") (Opt (Lit ".")); lit "IDR"; lit "Rp"].

Definition spaces : regex := star Chr.is_space.      (* [\s*] *)
Definition spaces1 : regex := plus Chr.is_space.     (* [\s+] *)

(** *** Lines

    [[line.strip() for line in text.split('\n') if line.strip()]] *)
Definition split_lines (text : string) : list string :=
  List.map Str.strip
    (List.filter (fun l => negb (Str.is_empty (Str.strip l)))
       (Str.split "010"%char text)).

(** *** Merchant name *)

(** [\d{3,}] *)
Definition digit_run : pattern :=
  {| expr := at_least 3 Chr.is_digit; ngroups := 0 |}.

(** [re.sub(r'[^\w\s&.-]', ' ', line)] then [' '.join(cleaned.split())] *)
Definition clean_name (line : string) : string :=
  let keep c := Chr.is_word c || Chr.is_space c || Chr.one_of ["&"; "."; "-"]%char c in
  Str.join " " (Str.words (Str.map (fun c => if keep c then c else " "%char) line)).

Fixpoint merchant_scan (lines : list string) : string :=
  match lines with
  | [] => ""
  | line :: rest =>
      if negb (found digit_run line)
         && (3 <? String.length line)%nat && (String.length line <? 50)%nat
      then
        let cleaned := clean_name line in
        if (3 <? String.length cleaned)%nat then cleaned   (* break *)
        else merchant_scan rest
      else merchant_scan rest
  end.

Definition extract_merchant (lines : list string) : string :=
  merchant_scan (firstn 5 lines).

(** *** Date *)

(** [(\d{1,2})[\/\-\.](\d{1,2})[\/\-\.](\d{2,4})] *)
Definition date_dmy : pattern :=
  {| expr := cat [Grp 1 (times 1 2 Chr.is_digit); Cls date_sep;
                  Grp 2 (times 1 2 Chr.is_digit); Cls date_sep;
                  Grp 3 (times 2 4 Chr.is_digit)];
     ngroups := 3 |}.

(** [(\d{2,4})[\/\-\.](\d{1,2})[\/\-\.](\d{1,2})] *)
Definition date_ymd : pattern :=
  {| expr := cat [Grp 1 (times 2 4 Chr.is_digit); Cls date_sep;
                  Grp 2 (times 1 2 Chr.is_digit); Cls date_sep;
                  Grp 3 (times 1 2 Chr.is_digit)];
     ngroups := 3 |}.

(** [(\d{1,2})\s+(Jan|Feb|Mar|Apr|May|Jun|Jul|Aug|Sep|Oct|Nov|Dec)\s+(\d{2,4})] *)
Definition date_mon : pattern :=
  {| expr := cat [Grp 1 (times 1 2 Chr.is_digit); spaces1;
                  Grp 2 (alt (List.map lit
                    ["Jan"; "Feb"; "Mar"; "Apr"; "May"; "Jun";
                     "Jul"; "Aug"; "Sep"; "Oct"; "Nov"; "Dec"]));
                  spaces1;
                  Grp 3 (times 2 4 Chr.is_digit)];
     ngroups := 3 |}.

Definition date_patterns : list pattern := [date_dmy; date_ymd; date_mon].

(** A list with the positions of its elements. The loop tests
    [pattern == date_patterns[0]] and [pattern == date_patterns[1]]; the three
    pattern strings differ, so the test is on the position. *)
Definition indexed {A : Type} (l : list A) : list (nat * A) :=
  combine (seq 0 (List.length l)) l.

(** The body of the [try]: what a match of the pattern at position [idx]
    assigns to [parsed_data['date']], or [None] when it assigns nothing.
    No statement of that body can raise. *)
Definition date_of_match (idx : nat) (groups : list string) : option string :=
  match idx, groups with
  | O, [day; month; year] =>
      let year := if (String.length year =? 2)%nat then "20" ++ year else year in
      Some (year ++ "-" ++ Str.zfill 2 month ++ "-" ++ Str.zfill 2 day)
  | S O, [year; month; day] =>
      Some (year ++ "-" ++ Str.zfill 2 month ++ "-" ++ Str.zfill 2 day)
  | _, _ => None
  end.

(** The inner loop, over the patterns: the first one that matches the line
    decides, then [break]. *)
Fixpoint date_scan_line (pats : list (nat * pattern)) (line : string)
    (current : string) : string :=
  match pats with
  | [] => current
  | (idx, p) :: rest =>
      match search p line with
      | Some groups =>
          match date_of_match idx groups with
          | Some d => d
          | None => current
          end
      | None => date_scan_line rest line current
      end
  end.

(** The outer loop, over the lines; it has no [break] of its own. *)
Definition extract_date (lines : list string) (current : string) : string :=
  fold_left (fun d line => date_scan_line (indexed date_patterns) line d)
    lines current.

(** *** Total *)

(** [(?:TOTAL|GRAND\s*TOTAL|SUB\s*TOTAL|HARGA\s*JUAL)\s*:?\s*(?:RP\.?|IDR|Rp)?\s*([\d\.,]+)] *)
Definition total_keyword : pattern :=
  {| expr := cat [alt [lit "TOTAL";
                       cat [lit "GRAND"; spaces; lit "TOTAL"];
                       cat [lit "SUB"; spaces; lit "TOTAL"];
                       cat [lit "HARGA"; spaces; lit "JUAL"]];
                  spaces; Opt (Lit ":"); spaces; Opt currency; spaces;
                  Grp 1 (plus amount_char)];
     ngroups := 1 |}.

(** [(?:RP\.?|IDR|Rp)\s*([\d\.,]+)(?:\s*(?:TOTAL|JUMLAH))?] *)
Definition total_currency : pattern :=
  {| expr := cat [currency; spaces; Grp 1 (plus amount_char);
                  Opt (Cat spaces (alt [lit "TOTAL"; lit "JUMLAH"]))];
     ngroups := 1 |}.

(** [TOTAL.*?([\d\.,]{4,})] *)
Definition total_then_amount : pattern :=
  {| expr := cat [lit "TOTAL"; star_lazy Chr.is_any;
                  Grp 1 (at_least 4 amount_char)];
     ngroups := 1 |}.

(** [([\d\.,]{4,})\s*(?:TOTAL|JUMLAH)] *)
Definition amount_then_total : pattern :=
  {| expr := cat [Grp 1 (at_least 4 amount_char); spaces;
                  alt [lit "TOTAL"; lit "JUMLAH"]];
     ngroups := 1 |}.

Definition total_patterns : list pattern :=
  [total_keyword; total_currency; total_then_amount; amount_then_total].

(** [match.group(1)] with the non-digits removed, when it is accepted:
    [if amount_str and len(amount_str) >= 3]. *)
Definition accepted_amount (groups : list string) : option string :=
  let amount_str := Str.digits_only (hd "" groups) in
  if negb (Str.is_empty amount_str) && (3 <=? String.length amount_str)%nat
  then Some amount_str else None.

(** The inner loop: the first pattern whose match gives an accepted amount
    sets the total and breaks; a match that is not accepted goes on to the
    next pattern. [int] cannot fail on an accepted amount, a non-empty run
    of digits. *)
Fixpoint total_scan_line (pats : list pattern) (line : string) (current : Z) : Z :=
  match pats with
  | [] => current
  | p :: rest =>
      match search p line with
      | Some groups =>
          match accepted_amount groups with
          | Some amount_str => Str.int_acc amount_str 0   (* break *)
          | None => total_scan_line rest line current
          end
      | None => total_scan_line rest line current
      end
  end.

(** The outer loop: [if parsed_data['total'] > 0: break] after each line. *)
Fixpoint total_scan (lines : list string) (current : Z) : Z :=
  match lines with
  | [] => current
  | line :: rest =>
      let t := total_scan_line total_patterns line current in
      if 0 <? t then t else total_scan rest t
  end.

Definition extract_total (lines : list string) : Z := total_scan lines 0.

(** *** Line items *)

(** [(?:NAMA|ITEM|QTY|HARGA|TOTAL|GRAND|SUB|KASIR|TANGGAL|NO\.)] *)
Definition header_words : pattern :=
  {| expr := alt (List.map lit
       ["NAMA"; "ITEM"; "QTY"; "HARGA"; "TOTAL"; "GRAND"; "SUB"; "KASIR";
        "TANGGAL"; "NO."]);
     ngroups := 0 |}.

Definition item_name : regex := Grp 1 (plus_lazy Chr.is_any).   (* [(.+?)] *)

(** Pattern 1, "Item Qty Price Total":
    [^(.+?)\s+(\d+)\s+(?:RP\.?|IDR|Rp)?\s*([\d\.,]+)\s+(?:RP\.?|IDR|Rp)?\s*([\d\.,]+)$] *)
Definition item_qty_price_total : pattern :=
  {| expr := cat [Bol; item_name; spaces1; Grp 2 (plus Chr.is_digit); spaces1;
                  Opt currency; spaces; Grp 3 (plus amount_char); spaces1;
                  Opt currency; spaces; Grp 4 (plus amount_char); Eol];
     ngroups := 4 |}.

(** Pattern 2, "Item Qty x Price":
    [^(.+?)\s+(\d+)\s*[xX*]\s*(?:RP\.?|IDR|Rp)?\s*([\d\.,]+)] *)
Definition item_qty_x_price : pattern :=
  {| expr := cat [Bol; item_name; spaces1; Grp 2 (plus Chr.is_digit); spaces;
                  Cls times_char; spaces; Opt currency; spaces;
                  Grp 3 (plus amount_char)];
     ngroups := 3 |}.

(** Pattern 3, "Item Total":
    [^(.+?)\s+(?:RP\.?|IDR|Rp)?\s*([\d\.,]{4,})$] *)
Definition item_price : pattern :=
  {| expr := cat [Bol; item_name; spaces1; Opt currency; spaces;
                  Grp 2 (at_least 4 amount_char); Eol];
     ngroups := 2 |}.

(** Pattern 4, "Item with quantity in parentheses":
    [^(.+?)\s*\((\d+)\)\s*(?:RP\.?|IDR|Rp)?\s*([\d\.,]+)] *)
Definition item_paren_qty : pattern :=
  {| expr := cat [Bol; item_name; spaces; Lit "("; Grp 2 (plus Chr.is_digit);
                  Lit ")"; spaces; Opt currency; spaces;
                  Grp 3 (plus amount_char)];
     ngroups := 3 |}.

Definition item_patterns : list pattern :=
  [item_qty_price_total; item_qty_x_price; item_price; item_paren_qty].

(** [abs(quantity * unit_price - total_price) <= total_price * 0.15]:
    the product on the right is a [float]; converting [total_price] can
    raise [OverflowError]. *)
Definition within_tolerance (quantity unit_price total_price : Z) : option bool :=
  match Flt.of_int total_price with
  | Some t => Some (Flt.int_leb (Z.abs (quantity * unit_price - total_price))
                                (PrimFloat.mul t 0.15))
  | None => None
  end.

(** The body of the [try], by the number of groups of the match: the items
    it appends, or [None] when it raises (an amount without a digit makes
    [int('')] raise [ValueError]). *)
Definition items_of_match (groups : list string) : option (list LineItem) :=
  match groups with
  | [g0; g1; g2; g3] =>
      let name := Str.strip g0 in
      match Str.int g1 with None => None | Some quantity =>
      match Str.int (Str.digits_only g2) with None => None | Some unit_price =>
      match Str.int (Str.digits_only g3) with None => None | Some total_price =>
        if 0 <? unit_price then
          match within_tolerance quantity unit_price total_price with
          | None => None
          | Some true =>
              Some [{| name := name; quantity := quantity; price := unit_price |}]
          | Some false => Some []
          end
        else Some []
      end end end
  | [g0; g1; g2] =>
      let name := Str.strip g0 in
      match Str.int g1 with None => None | Some quantity =>
      match Str.int (Str.digits_only g2) with None => None | Some price =>
        if (0 <? price) && (0 <? quantity)
        then Some [{| name := name; quantity := quantity; price := price |}]
        else Some []
      end end
  | [g0; g1] =>
      let name := Str.strip g0 in
      match Str.int (Str.digits_only g1) with None => None | Some price =>
        if (1000 <? price) && (2 <? String.length name)%nat
        then Some [{| name := name; quantity := 1; price := price |}]
        else Some []
      end
  | _ => Some []
  end.

(** The inner loop: the first pattern that matches and whose [try] body
    completes ends the line ([break]); a body that raises goes on to the
    next pattern ([continue]). *)
Fixpoint items_scan_line (pats : list pattern) (line : string) : list LineItem :=
  match pats with
  | [] => []
  | p :: rest =>
      match search p line with
      | Some groups =>
          match items_of_match groups with
          | Some found_items => found_items
          | None => items_scan_line rest line
          end
      | None => items_scan_line rest line
      end
  end.

(** What one line appends to [items]: nothing for a header or footer line. *)
Definition items_of_line (line : string) : list LineItem :=
  if found header_words line then [] else items_scan_line item_patterns line.

(** The key of an item in [seen]: [(item['name'].lower().strip(), item['price'])] *)
Definition item_key (it : LineItem) : string * Z :=
  (Str.strip (Str.lower (name it)), price it).

Definition key_eqb (a b : string * Z) : bool :=
  String.eqb (fst a) (fst b) && (snd a =? snd b).

(** The last loop: keep the items with a name and a positive price, the
    first of each key. *)
Fixpoint dedup (its : list LineItem) (seen : list (string * Z)) : list LineItem :=
  match its with
  | [] => []
  | it :: rest =>
      if negb (Str.is_empty (name it)) && (0 <? price it) then
        let key := item_key it in
        if existsb (key_eqb key) seen then dedup rest seen
        else it :: dedup rest (key :: seen)
      else dedup rest seen
  end.

Definition extract_items_smart (lines : list string) : list LineItem :=
  dedup (flat_map items_of_line lines) [].

(** *** Confidence *)

Definition calculate_confidence (parsed_data : parsed) (raw : string) : float :=
  let score := 0%float in
  let score := if negb (Str.is_empty (merchantName parsed_data))
               then (score + 0.25)%float else score in
  let score := if 0 <? total parsed_data then (score + 0.35)%float else score in
  let score :=
    if negb (match items parsed_data with [] => true | _ => false end)
       && existsb (fun it => negb (Str.is_empty (name it))) (items parsed_data)
    then (score + 0.25)%float else score in
  let score := if (50 <? String.length raw)%nat then (score + 0.15)%float else score in
  Flt.min score 1.

(** *** The whole parse

    [today] is [datetime.now().strftime('%Y-%m-%d')], the default date. *)

Definition placeholder : LineItem := {| name := ""; quantity := 1; price := 0 |}.

Definition smart_parse_receipt (today : string) (text : string) : parsed :=
  let lines := split_lines text in
  let found_items := extract_items_smart lines in
  let parsed_data :=
    {| merchantName := extract_merchant lines;
       date := extract_date lines today;
       items := match found_items with [] => [placeholder] | _ => found_items end;
       total := extract_total lines;
       confidence := 0;
       raw_text := text |} in
  {| merchantName := merchantName parsed_data;
     date := date parsed_data;
     items := items parsed_data;
     total := total parsed_data;
     confidence := calculate_confidence parsed_data text;
     raw_text := raw_text parsed_data |}.

End Receipt.

(** ** The score as the design document words it

    "Weighted sum, capped at 1.0: +0.25 if merchant name non-empty; +0.35 if
    total > 0; +0.25 if at least one item has a non-empty name; +0.15 if raw
    text length > 50 characters." *)

Module Scoring.

Import Receipt.

Definition weight (holds : bool) (w : float) : float :=
  if holds then w else 0%float.

Definition weighted_sum (has_merchant has_total has_item long_text : bool) : float :=
  Flt.min (weight has_merchant 0.25 + weight has_total 0.35
           + weight has_item 0.25 + weight long_text 0.15)%float 1.

Definition has_merchant (p : parsed) : bool := negb (Str.is_empty (merchantName p)).
Definition has_total (p : parsed) : bool := 0 <? total p.
Definition has_named_item (p : parsed) : bool :=
  existsb (fun it => negb (Str.is_empty (name it))) (items p).
Definition long_text (raw : string) : bool := (50 <? String.length raw)%nat.

End Scoring.

(** ** Shapes used to state the date properties *)

Module Dates.

Import Receipt.

(** [YYYY-MM-DD]: four digits, two digits, two digits, joined by hyphens. *)
Definition iso_shape (d : string) : bool :=
  match d with
  | String y1 (String y2 (String y3 (String y4 (String h1
      (String m1 (String m2 (String h2 (String d1 (String d2 EmptyString))))))))) =>
      forallb Chr.is_digit [y1; y2; y3; y4; m1; m2; d1; d2]
      && Ascii.eqb h1 "-" && Ascii.eqb h2 "-"
  | _ => false
  end.

(** A line on which one of the two numeric date patterns matches: the lines
    whose match assigns the date. *)
Definition has_numeric_date (line : string) : bool :=
  Re.found date_dmy line || Re.found date_ymd line.

(** Month within 1..12 and day within 1..31, which every calendar date
    satisfies. *)
Definition plausible (d : string) : bool :=
  match Str.int (substring 5 2 d), Str.int (substring 8 2 d) with
  | Some m, Some dd => (1 <=? m) && (m <=? 12) && (1 <=? dd) && (dd <=? 31)
  | _, _ => false
  end.

(** The year as the day/month/year branch writes it. *)
Definition expand_year (year : string) : string :=
  if (String.length year =? 2)%nat then "20" ++ year else year.

End Dates.

(** ** Tests used to state the priority among patterns *)

Module Priority.

Import Receipt.

(** The item pattern [q] leaves the line to the next pattern: it does not
    match, or the [try] body raises on its groups. *)
Definition passes_on (line : string) (q : Re.pattern) : bool :=
  match Re.search q line with
  | None => true
  | Some groups =>
      match items_of_match groups with None => true | Some _ => false end
  end.

(** The total pattern [q] gives an accepted amount on the line. *)
Definition accepts (line : string) (q : Re.pattern) : bool :=
  match Re.search q line with
  | None => false
  | Some groups =>
      match accepted_amount groups with Some _ => true | None => false end
  end.

End Priority.

(** ** Image upscaling: the sizes [enhance_image] asks [cv2.resize] for *)

Module Upscale.

(** [int(x)] for a [float]: truncation toward zero; [None] when it raises
    (infinities and NaN). *)
Definition trunc (x : float) : option Z :=
  match Prim2SF x with
  | S754_zero _ => Some 0
  | S754_finite s m e =>
      let v := if 0 <=? e then Z.pos m * 2 ^ e else Z.pos m / 2 ^ (- e) in
      Some (if s then - v else v)
  | _ => None
  end.

(** [int(n * scale_factor)] *)
Definition scaled (n : Z) (scale_factor : float) : option Z :=
  match Flt.of_int n with
  | Some f => trunc (PrimFloat.mul f scale_factor)
  | None => None
  end.

(** [1000 / height]: the quotient of two integers, correctly rounded, which
    for operands that floats hold exactly (as an image height below 1000) is
    the float division of the two; [ZeroDivisionError] on height 0. *)
Definition scale_factor (height : Z) : option float :=
  if height =? 0 then None
  else match Flt.of_int 1000, Flt.of_int height with
       | Some a, Some b => Some (PrimFloat.div a b)
       | _, _ => None
       end.

Inductive plan : Type :=
| keep_size                                  (* height >= 1000: no resize *)
| resize_to (new_width new_height : Z)       (* the size passed to cv2.resize *)
| fault.                                     (* an exception, caught by the
                                                function's [except]: the
                                                original image is returned *)

(** Step 2 of [enhance_image], from [gray.shape = (height, width)]. *)
Definition upscale (height width : Z) : plan :=
  if height <? 1000 then
    match scale_factor height with
    | None => fault
    | Some sf =>
        match scaled width sf, scaled height sf with
        | Some new_width, Some new_height => resize_to new_width new_height
        | _, _ => fault
        end
    end
  else keep_size.

End Upscale.

(** ** Recognition passes: [extract_text_multiple_configs]

    The image type, [enhance_image] and [pytesseract.image_to_string] are
    taken as given; a recognition call that raises is [None]. *)

Module Recognizer.

Inductive source : Type :=
| enhanced_config (n : nat)      (* f"enhanced_config_{i+1}" *)
| original_config_1.

(** [self.configs] *)
Definition configs : list string :=
  ["--oem 3 --psm 6 -c tessedit_char_whitelist=0123456789ABCDEFGHIJKLMNOPQRSTUVWXYZabcdefghijklmnopqrstuvwxyz.,-:/()* ";
   "--oem 3 --psm 4";
   "--oem 3 --psm 11";
   "--oem 3 --psm 13";
   "--oem 1 --psm 6"].

(** [if text.strip(): results.append((text.strip(), tag))] *)
Definition candidate (text : string) (tag : source) : list (string * source) :=
  if Str.is_empty (Str.strip text) then [] else [(Str.strip text, tag)].

(** [max(results, key=lambda x: len(x[0]))]: the first of the longest. *)
Fixpoint max_by_len (best : string * source) (rest : list (string * source))
    : string * source :=
  match rest with
  | [] => best
  | x :: rest' =>
      if (String.length (fst best) <? String.length (fst x))%nat
      then max_by_len x rest' else max_by_len best rest'
  end.

Section Passes.

Variable image_t : Type.
Variable enhance_image : image_t -> image_t.
Variable image_to_string : image_t -> string -> option string.

(** The body of the loop for the configuration at position [i]: what it
    appends to [results]. Both calls are in one [try]: when the first
    raises, the second is not made. *)
Definition pass (image enhanced : image_t) (i : nat) (config : string)
    : list (string * source) :=
  match image_to_string enhanced config with
  | None => []
  | Some text =>
      candidate text (enhanced_config (S i))
      ++ (if (i =? 0)%nat then
            match image_to_string image config with
            | None => []
            | Some original_text => candidate original_text original_config_1
            end
          else [])
  end.

Fixpoint passes (image enhanced : image_t) (i : nat) (cfgs : list string)
    : list (string * source) :=
  match cfgs with
  | [] => []
  | config :: rest =>
      (pass image enhanced i config ++ passes image enhanced (S i) rest)%list
  end.

Definition results (image : image_t) : list (string * source) :=
  passes image (enhance_image image) 0 configs.

Definition extract_text_multiple_configs (image : image_t) : string :=
  match results image with
  | [] => ""
  | first :: rest => fst (max_by_len first rest)
  end.

End Passes.

End Recognizer.

(** ** The request handler: [scan_receipt]

    Reading and decoding the upload ([image_file.read()], [Image.open],
    [convert('RGB')]) is taken as given, [None] when it raises. *)

Module Handler.

Import Receipt.

Inductive response : Type :=
| ok (data : parsed)               (* 200, {'success': True, 'data': ...} *)
| bad_request (error : string)     (* 400 *)
| server_error.                    (* 500, 'Error processing receipt: ...' *)

Section Scan.

Variable image_t : Type.
Variable enhance_image : image_t -> image_t.
Variable image_to_string : image_t -> string -> option string.
Variable load : string -> option image_t.

(** [upload] is [request.files.get('image')] as file name and content. *)
Definition scan_receipt (today : string) (upload : option (string * string))
    : response :=
  match upload with
  | None => bad_request "No image file provided"
  | Some (filename, content) =>
      if Str.is_empty filename then bad_request "No image file selected"
      else
        match load content with
        | None => server_error
        | Some image =>
            let extracted_text :=
              Recognizer.extract_text_multiple_configs image_t enhance_image
                image_to_string image in
            if Str.is_empty extracted_text
            then bad_request
                   "No text could be extracted from the image. Please try a clearer image."
            else ok (smart_parse_receipt today extracted_text)
        end
  end.

End Scan.

End Handler.

(** ** Orders on lists, to state what deduplication keeps *)

Module Order.

(** [l1] is [l2] with some elements left out. *)
Inductive subseq {A : Type} : list A -> list A -> Prop :=
| subseq_nil : subseq [] []
| subseq_skip x l1 l2 : subseq l1 l2 -> subseq l1 (x :: l2)
| subseq_keep x l1 l2 : subseq l1 l2 -> subseq (x :: l1) (x :: l2).

(** The first and the last character are not white space. *)
Definition first_ok (s : string) : bool :=
  match s with
  | EmptyString => true
  | String c _ => negb (Chr.is_space c)
  end.

Definition trimmed (s : string) : bool := first_ok s && first_ok (Str.rev s).

End Order.

(** ** The characters a cleaned merchant name can hold *)

Module Names.

(** A word character, [&], [.], [-], or the blank that joins two words. *)
Definition name_char (c : ascii) : bool :=
  Chr.is_word c || Chr.one_of ["&"; "."; "-"]%char c || Ascii.eqb c " ".

(** What every match body appends: a name without white space around it,
    a positive price, a quantity that is not negative. *)
Definition sound_item (it : Receipt.LineItem) : Prop :=
  Order.trimmed (Receipt.name it) = true
  /\ 0 < Receipt.price it /\ 0 <= Receipt.quantity it.

End Names.

(** ** A recognition engine to run the passes on

    It knows three configurations, fails on the others (the first among
    them), and reads the same text from every image. *)

Module Samples.

Definition image_to_string (image : unit) (config : string) : option string :=
  if String.eqb config "--oem 3 --psm 4" then Some " Toko  "
  else if String.eqb config "--oem 3 --psm 11" then Some "Toko Maju"
  else if String.eqb config "--oem 3 --psm 13" then Some "Maju Toko"
  else None.

Definition enhance_image (image : unit) : unit := image.

(** An engine that reads nothing but blanks. *)
Definition blank_to_string (image : unit) (config : string) : option string :=
  Some "   ".

End Samples.

(** Line feed, to write texts of several lines. *)
Definition nl : string := String "010"%char EmptyString.

(** * Properties *)

Import Receipt.

(** ** Items are never empty *)

Lemma placeholder_or_items (found_items : list LineItem) :
  match found_items with [] => [placeholder] | _ => found_items end <> [].
Proof. destruct found_items; discriminate. Qed.

(** C1. For every text the [items] of the parsed receipt is a non-empty
    list; when item extraction accepts nothing (in particular when no line
    yields an item) it is exactly one placeholder with empty name,
    quantity 1 and price 0; otherwise it is the extracted list. *)
Theorem items_never_empty (today text : string) :
  items (smart_parse_receipt today text) <> []
  /\ (extract_items_smart (split_lines text) = [] ->
      items (smart_parse_receipt today text)
      = [{| name := ""; quantity := 1; price := 0 |}])
  /\ ((forall line, In line (split_lines text) -> items_of_line line = []) ->
      items (smart_parse_receipt today text)
      = [{| name := ""; quantity := 1; price := 0 |}])
  /\ (extract_items_smart (split_lines text) <> [] ->
      items (smart_parse_receipt today text) = extract_items_smart (split_lines text)).
Proof.
  unfold smart_parse_receipt; cbn [items].
  repeat split.
  - apply placeholder_or_items.
  - intros ->. reflexivity.
  - intros none.
    assert (flat_map items_of_line (split_lines text) = []) as E.
    { induction (split_lines text) as [|l ls IH]; [reflexivity|].
      cbn [flat_map]. rewrite (none l (or_introl eq_refl)), IH; [reflexivity|].
      intros line inl. apply none. right. exact inl. }
    unfold extract_items_smart. rewrite E. reflexivity.
  - destruct (extract_items_smart (split_lines text)); [intros H; now elim H | reflexivity].
Qed.

(** ** Confidence *)

Lemma named_item_test (its : list LineItem) (f : LineItem -> bool) :
  negb (match its with [] => true | _ => false end) && existsb f its = existsb f its.
Proof. destruct its; reflexivity. Qed.

(** C2. [calculate_confidence] is the sum of the four weights, each counted
    when its predicate holds, capped at 1.0; the result lies in [0,1]; and
    it is exactly 1.0 when the four predicates hold. *)
Theorem calculate_confidence_weighted_sum (p : parsed) (raw : string) :
  calculate_confidence p raw
  = Scoring.weighted_sum (Scoring.has_merchant p) (Scoring.has_total p)
      (Scoring.has_named_item p) (Scoring.long_text raw)
  /\ PrimFloat.leb 0 (calculate_confidence p raw) = true
  /\ PrimFloat.leb (calculate_confidence p raw) 1 = true
  /\ (Scoring.has_merchant p = true -> Scoring.has_total p = true ->
      Scoring.has_named_item p = true -> Scoring.long_text raw = true ->
      calculate_confidence p raw = 1%float).
Proof.
  unfold calculate_confidence, Scoring.weighted_sum, Scoring.has_merchant,
    Scoring.has_total, Scoring.has_named_item, Scoring.long_text.
  rewrite named_item_test.
  destruct (negb (Str.is_empty (merchantName p)));
    destruct (0 <? total p);
    destruct (existsb _ (items p));
    destruct (50 <? String.length raw)%nat;
    cbv [Scoring.weight]; repeat split; try discriminate;
    vm_compute; reflexivity.
Qed.

(** ** What a match tells: inversion of the matcher *)

Lemma length_take_le (n : nat) (s : string) :
  (n <= String.length s)%nat -> String.length (Str.take n s) = n.
Proof.
  revert s; induction n as [|n IH]; intros [|c s] H; cbn in *; try lia.
  rewrite IH; lia.
Qed.

(** A greedy repetition that lets the rest match has taken some [n]
    characters of the class, [n] within the bounds. *)
Lemma rep_greedy_inv {R : Type} (p : ascii -> bool) (s : string) :
  forall lo hi i (k : nat -> string -> option R) r,
    Re.rep_greedy p lo hi i s k = Some r ->
    exists n, (lo <= n)%nat /\ (forall h, hi = Some h -> (n <= h)%nat)
      /\ String.length (Str.take n s) = n
      /\ Str.forallb p (Str.take n s) = true
      /\ k (i + n)%nat (Str.drop n s) = Some r.
Proof.
  induction s as [|c s IH]; intros lo hi i k r H; cbn [Re.rep_greedy] in H.
  - destruct lo; [|discriminate].
    exists 0%nat. rewrite Nat.add_0_r. cbn. repeat split; auto; lia.
  - assert (stop : match lo with O => k i (String c s) | S _ => None end = Some r ->
        exists n, (lo <= n)%nat /\ (forall h, hi = Some h -> (n <= h)%nat)
          /\ String.length (Str.take n (String c s)) = n
          /\ Str.forallb p (Str.take n (String c s)) = true
          /\ k (i + n)%nat (Str.drop n (String c s)) = Some r).
    { destruct lo; [|discriminate]. intros E.
      exists 0%nat. rewrite Nat.add_0_r. cbn. repeat split; auto; lia. }
    destruct (p c) eqn:pc; cbn [andb] in H; [|now apply stop].
    destruct (Re.room hi) eqn:rm; [|now apply stop].
    unfold Re.orelse in H.
    destruct (Re.rep_greedy p (Nat.pred lo) (Re.less hi) (S i) s k) as [x|] eqn:E;
      [|now apply stop].
    injection H as ->.
    destruct (IH _ _ _ _ _ E) as (n & lo_n & n_hi & len & all & cont).
    exists (S n). cbn [Str.take Str.drop Str.forallb String.length].
    rewrite pc, len, all. replace (i + S n)%nat with (S i + n)%nat by lia.
    repeat split; auto; try lia.
    intros h ->. destruct h as [|h]; [discriminate rm|].
    specialize (n_hi h eq_refl). lia.
Qed.

(** A successful search is a successful run from some suffix. *)
Lemma search_from_inv (r : Re.regex) (s : string) :
  forall i m, Re.search_from r i s = Some m ->
    exists j s', Re.run r j s' [] (fun _ _ m' => Some m') = Some m.
Proof.
  induction s as [|c s IH]; intros i m H; cbn [Re.search_from] in H.
  - destruct (Re.run r i "" [] _) eqn:E; [|discriminate].
    injection H as ->. eauto.
  - destruct (Re.run r i (String c s) [] _) eqn:E.
    + injection H as ->. eauto.
    + eauto.
Qed.

Lemma digit_not_sign (c : ascii) :
  Chr.is_digit c = true -> Chr.one_of ["+"; "-"]%char c = false.
Proof.
  intros d. cbn [Chr.one_of existsb].
  destruct (Ascii.eqb c "+") eqn:E1; [apply Ascii.eqb_eq in E1; subst; discriminate|].
  destruct (Ascii.eqb c "-") eqn:E2; [apply Ascii.eqb_eq in E2; subst; discriminate|].
  reflexivity.
Qed.

(** The groups of a day/month/year match: one or two digits, one or two
    digits, two to four digits. *)
Lemma date_dmy_groups (line day month year : string) :
  Re.search date_dmy line = Some [day; month; year] ->
  (Str.forallb Chr.is_digit day = true /\ (1 <= String.length day <= 2)%nat)
  /\ (Str.forallb Chr.is_digit month = true /\ (1 <= String.length month <= 2)%nat)
  /\ (Str.forallb Chr.is_digit year = true /\ (2 <= String.length year <= 4)%nat).
Proof.
  unfold Re.search.
  destruct (Re.search_from (Re.expr date_dmy) 0 line) as [m|] eqn:S; [|discriminate].
  intros G. apply search_from_inv in S. destruct S as (j & s & S).
  cbn [Re.expr date_dmy Re.cat Re.times Re.run] in S.
  apply rep_greedy_inv in S.
  destruct S as (n1 & lo1 & hi1 & len1 & all1 & S).
  destruct (Str.drop n1 s) as [|c1 s1]; [discriminate|].
  destruct (date_sep c1); [|discriminate].
  apply rep_greedy_inv in S.
  destruct S as (n2 & lo2 & hi2 & len2 & all2 & S).
  destruct (Str.drop n2 s1) as [|c2 s2]; [discriminate|].
  destruct (date_sep c2); [|discriminate].
  apply rep_greedy_inv in S.
  destruct S as (n3 & lo3 & hi3 & len3 & all3 & S).
  injection S as <-.
  cbn in G. injection G as <- <- <-.
  specialize (hi1 _ eq_refl). specialize (hi2 _ eq_refl). specialize (hi3 _ eq_refl).
  assert (E : forall a b, (a + b - a)%nat = b) by (intros; lia).
  rewrite !E, len1, len2, len3, all1, all2, all3. repeat split; auto; lia.
Qed.

(** ** Dates *)

(** The inner loop over the three date patterns, written out. *)
Lemma date_scan_line_patterns (line current : string) :
  date_scan_line (indexed date_patterns) line current
  = match Re.search date_dmy line with
    | Some groups =>
        match date_of_match 0 groups with Some d => d | None => current end
    | None =>
        match Re.search date_ymd line with
        | Some groups =>
            match date_of_match 1 groups with Some d => d | None => current end
        | None => current
        end
    end.
Proof.
  cbn [indexed date_patterns List.length seq combine date_scan_line].
  destruct (Re.search date_dmy line); [reflexivity|].
  destruct (Re.search date_ymd line); [reflexivity|].
  destruct (Re.search date_mon line) as [groups|]; [|reflexivity].
  reflexivity.
Qed.

(** A match of the month-name pattern assigns nothing: the [try] body has
    no branch for it. *)
Lemma date_of_match_mon (groups : list string) : date_of_match 2 groups = None.
Proof. reflexivity. Qed.

Lemma no_numeric_date_keeps (line current : string) :
  Dates.has_numeric_date line = false ->
  date_scan_line (indexed date_patterns) line current = current.
Proof.
  unfold Dates.has_numeric_date, Re.found. rewrite date_scan_line_patterns.
  destruct (Re.search date_dmy line); [discriminate|].
  destruct (Re.search date_ymd line); [discriminate|].
  reflexivity.
Qed.

Lemma extract_date_keeps (lines : list string) (current : string) :
  forallb (fun l => negb (Dates.has_numeric_date l)) lines = true ->
  extract_date lines current = current.
Proof.
  revert current; induction lines as [|l ls IH]; intros current H; [reflexivity|].
  cbn [forallb] in H. apply andb_prop in H as [Hl Hls].
  unfold extract_date in *. cbn [fold_left].
  rewrite no_numeric_date_keeps by (now destruct (Dates.has_numeric_date l)).
  now apply IH.
Qed.

(** The outer loop never stops: the date is the one the last line with a
    numeric date assigns. *)
Lemma extract_date_last (before after : list string) (line current : string) :
  forallb (fun l => negb (Dates.has_numeric_date l)) after = true ->
  extract_date (before ++ line :: after) current
  = date_scan_line (indexed date_patterns) line (extract_date before current).
Proof.
  intros H. unfold extract_date. rewrite fold_left_app. cbn [fold_left].
  now apply extract_date_keeps.
Qed.

Lemma date_of_parse (today text : string) :
  date (smart_parse_receipt today text) = extract_date (split_lines text) today.
Proof. reflexivity. Qed.

(** C3 (evaluation of the code). With a date on each of two lines the
    result is the date of the second line, not of the first: the [break]
    leaves the loop over the patterns only. *)
Theorem later_date_line_overrides (today : string) :
  date (smart_parse_receipt today "01/02/2024") = "2024-02-01"
  /\ split_lines ("01/02/2024" ++ nl ++ "03/04/2025") = ["01/02/2024"; "03/04/2025"]
  /\ date (smart_parse_receipt today ("01/02/2024" ++ nl ++ "03/04/2025")) = "2025-04-03".
Proof. rewrite !date_of_parse. repeat split; vm_compute; reflexivity. Qed.

(** C5 (evaluation of the code). A line that only the month-name pattern
    matches leaves the date at its default. *)
Theorem month_name_date_ignored (today : string) :
  Re.search date_dmy "12 Jan 2024" = None
  /\ Re.search date_ymd "12 Jan 2024" = None
  /\ Re.search date_mon "12 Jan 2024" = Some ["12"; "Jan"; "2024"]
  /\ date (smart_parse_receipt today "12 Jan 2024") = today.
Proof. rewrite date_of_parse. repeat split; vm_compute; reflexivity. Qed.

Lemma zfill2_digits (s : string) :
  Str.forallb Chr.is_digit s = true -> (1 <= String.length s <= 2)%nat ->
  exists a b, Str.zfill 2 s = String a (String b "")
    /\ Chr.is_digit a = true /\ Chr.is_digit b = true.
Proof.
  intros all len.
  destruct s as [|a [|b [|c s]]]; cbn in len; try lia.
  - cbn in all. rewrite andb_true_r in all.
    exists "0"%char, a. unfold Str.zfill. cbn [String.length Nat.sub Str.repeat].
    rewrite (digit_not_sign _ all). auto.
  - cbn in all. apply andb_prop in all as [da db']. rewrite andb_true_r in db'.
    exists a, b. unfold Str.zfill. cbn [String.length Nat.sub Str.repeat].
    rewrite (digit_not_sign _ da). auto.
Qed.

Lemma iso_shape_dmy (day month year : string) :
  Str.forallb Chr.is_digit day = true -> (1 <= String.length day <= 2)%nat ->
  Str.forallb Chr.is_digit month = true -> (1 <= String.length month <= 2)%nat ->
  Str.forallb Chr.is_digit year = true ->
  (String.length year = 2 \/ String.length year = 4)%nat ->
  Dates.iso_shape (Dates.expand_year year ++ "-" ++ Str.zfill 2 month
                   ++ "-" ++ Str.zfill 2 day) = true.
Proof.
  intros dd ld dm lm dy ly.
  destruct (zfill2_digits day dd ld) as (d1 & d2 & -> & Hd1 & Hd2).
  destruct (zfill2_digits month dm lm) as (m1 & m2 & -> & Hm1 & Hm2).
  unfold Dates.expand_year.
  destruct year as [|y1 [|y2 [|y3 [|y4 [|y5 year]]]]]; cbn in ly; try lia;
    cbn in dy; repeat (apply andb_prop in dy as [? dy]);
    cbn; repeat match goal with H : Chr.is_digit _ = true |- _ => rewrite H; clear H end;
    reflexivity.
Qed.

(** C4 (amended). In a text with one line that carries a numeric date (no
    line before it and no line after it has one), a match of the
    day/month/year pattern on that line yields year-month-day with month
    and day padded to two digits; a two-digit year group is prefixed with
    "20"; the result has the shape YYYY-MM-DD when the year group has two
    or four digits. *)
Theorem dmy_date_normalized
    (today text : string) (before after : list string) (line day month year : string) :
  split_lines text = (before ++ line :: after)%list ->
  forallb (fun l => negb (Dates.has_numeric_date l)) before = true ->
  forallb (fun l => negb (Dates.has_numeric_date l)) after = true ->
  Re.search date_dmy line = Some [day; month; year] ->
  date (smart_parse_receipt today text)
  = Dates.expand_year year ++ "-" ++ Str.zfill 2 month ++ "-" ++ Str.zfill 2 day
  /\ (String.length year = 2%nat ->
      date (smart_parse_receipt today text)
      = "20" ++ year ++ "-" ++ Str.zfill 2 month ++ "-" ++ Str.zfill 2 day)
  /\ (String.length year <> 3%nat ->
      Dates.iso_shape (date (smart_parse_receipt today text)) = true).
Proof.
  intros lines_eq _ rest_plain found_dmy.
  assert (date (smart_parse_receipt today text)
          = Dates.expand_year year ++ "-" ++ Str.zfill 2 month ++ "-" ++ Str.zfill 2 day) as E.
  { rewrite date_of_parse, lines_eq, extract_date_last by assumption.
    rewrite date_scan_line_patterns, found_dmy. reflexivity. }
  split; [exact E|]. split.
  - intros two. rewrite E. unfold Dates.expand_year. rewrite two. reflexivity.
  - intros not3. rewrite E.
    destruct (date_dmy_groups _ _ _ _ found_dmy) as ((dd & ld) & (dm & lm) & (dy & ly)).
    apply iso_shape_dmy; auto; lia.
Qed.

(** "24/05/09" and "12/05/2024", each the only line of its text. *)
Lemma dmy_date_normalized_witness :
  (date (smart_parse_receipt "2026-11-03" "24/05/09") = "2009-05-24"
   /\ Dates.iso_shape (date (smart_parse_receipt "2026-11-03" "24/05/09")) = true)
  /\ (date (smart_parse_receipt "2026-11-03" "12/05/2024") = "2024-05-12"
      /\ Dates.iso_shape (date (smart_parse_receipt "2026-11-03" "12/05/2024")) = true).
Proof.
  split.
  - destruct (dmy_date_normalized "2026-11-03" "24/05/09" [] [] "24/05/09" "24" "05" "09")
      as (_ & expanded & shaped);
      [vm_compute; reflexivity | reflexivity | reflexivity | vm_compute; reflexivity |].
    split; [exact (expanded eq_refl) | apply shaped; discriminate].
  - destruct (dmy_date_normalized "2026-11-03" "12/05/2024" [] [] "12/05/2024" "12" "05" "2024")
      as (assembled & _ & shaped);
      [vm_compute; reflexivity | reflexivity | reflexivity | vm_compute; reflexivity |].
    split; [exact assembled | apply shaped; discriminate].
Defined.

(** C4 (counterexample). "24/5/9" is not matched day first, since a year
    group needs two digits; the year/month/day pattern matches it with the
    two-digit year group "24", which is kept as it is: the date is
    "24-05-09", not "2009-05-24". *)
Lemma ymd_two_digit_year_kept :
  Re.search date_dmy "24/5/9" = None
  /\ Re.search date_ymd "24/5/9" = Some ["24"; "5"; "9"]
  /\ date (smart_parse_receipt "2026-11-03" "24/5/9") = "24-05-09"
  /\ date (smart_parse_receipt "2026-11-03" "24/5/9") <> "2009-05-24".
Proof. repeat split; try (vm_compute; reflexivity). vm_compute. discriminate. Qed.

(** C10 (amended). The numeric date patterns check no calendar range: in a
    text with one line that carries a numeric date (no line before it and
    no line after it has one), the date is put together from the digit
    groups captured on that line, whatever their values: rearranged to
    year-month-day, month and day padded with zeros to two digits, and the
    year of a day/month/year match prefixed with "20" when it has two
    digits. *)
Theorem numeric_date_unvalidated
    (today text : string) (before after : list string) (line g1 g2 g3 : string) :
  split_lines text = (before ++ line :: after)%list ->
  forallb (fun l => negb (Dates.has_numeric_date l)) before = true ->
  forallb (fun l => negb (Dates.has_numeric_date l)) after = true ->
  (Re.search date_dmy line = Some [g1; g2; g3] ->
   date (smart_parse_receipt today text)
   = Dates.expand_year g3 ++ "-" ++ Str.zfill 2 g2 ++ "-" ++ Str.zfill 2 g1)
  /\ (Re.search date_dmy line = None ->
      Re.search date_ymd line = Some [g1; g2; g3] ->
      date (smart_parse_receipt today text)
      = g1 ++ "-" ++ Str.zfill 2 g2 ++ "-" ++ Str.zfill 2 g3).
Proof.
  intros lines_eq _ rest_plain.
  rewrite date_of_parse, lines_eq, extract_date_last by assumption.
  rewrite date_scan_line_patterns.
  split.
  - intros ->. reflexivity.
  - intros -> ->. reflexivity.
Qed.

(** "99/99/2024" gives "2024-99-99", month 99 and day 99; and the reversed
    "2024/13/5" gives "2024-13-05". *)
Lemma numeric_date_unvalidated_witness :
  (date (smart_parse_receipt "2026-11-03" "99/99/2024") = "2024-99-99"
   /\ Dates.plausible "2024-99-99" = false)
  /\ (date (smart_parse_receipt "2026-11-03" ("Toko Maju" ++ nl ++ "2024/13/5" ++ nl ++ "Kopi"))
      = "2024-13-05"
      /\ Dates.plausible "2024-13-05" = false).
Proof.
  split; (split; [|vm_compute; reflexivity]).
  - apply (numeric_date_unvalidated "2026-11-03" "99/99/2024" [] [] "99/99/2024"
             "99" "99" "2024");
      vm_compute; reflexivity.
  - apply (numeric_date_unvalidated "2026-11-03"
             ("Toko Maju" ++ nl ++ "2024/13/5" ++ nl ++ "Kopi")
             ["Toko Maju"] ["Kopi"] "2024/13/5" "2024" "13" "5");
      vm_compute; reflexivity.
Defined.

(** C10 (counterexample). The groups of "1/2/24" are "1", "2" and "24";
    padded and rearranged they give "24-02-01", but the day/month/year
    branch also prefixes the two-digit year with "20": the date is
    "2024-02-01". *)
Lemma two_digit_year_prefixed :
  Re.search date_dmy "1/2/24" = Some ["1"; "2"; "24"]
  /\ "24" ++ "-" ++ Str.zfill 2 "2" ++ "-" ++ Str.zfill 2 "1" = "24-02-01"
  /\ date (smart_parse_receipt "2026-11-03" "1/2/24") = "2024-02-01"
  /\ date (smart_parse_receipt "2026-11-03" "1/2/24") <> "24-02-01".
Proof. repeat split; try (vm_compute; reflexivity). vm_compute. discriminate. Qed.

(** ** Line items *)

Lemma items_scan_line_passes (line : string) (before : list Re.pattern) :
  forall rest,
    forallb (Priority.passes_on line) before = true ->
    items_scan_line (before ++ rest) line = items_scan_line rest line.
Proof.
  induction before as [|q before IH]; intros rest H; [reflexivity|].
  cbn [forallb] in H. apply andb_prop in H as [Hq Hb].
  cbn [app items_scan_line]. unfold Priority.passes_on in Hq.
  destruct (Re.search q line) as [groups|]; [|now apply IH].
  destruct (items_of_match groups); [discriminate|now apply IH].
Qed.

(** The first pattern, in the order of [item_patterns], that matches and
    whose groups parse decides what the line appends. *)
Lemma first_completed_match_decides
    (line : string) (before after : list Re.pattern) (p : Re.pattern)
    (groups : list string) (its : list LineItem) :
  Re.found header_words line = false ->
  item_patterns = (before ++ p :: after)%list ->
  forallb (Priority.passes_on line) before = true ->
  Re.search p line = Some groups ->
  items_of_match groups = Some its ->
  items_of_line line = its.
Proof.
  intros not_header order passed matched parsed.
  unfold items_of_line. rewrite not_header, order.
  rewrite items_scan_line_passes by assumption.
  cbn [items_scan_line]. rewrite matched, parsed. reflexivity.
Qed.

(** C6 (amended). The four grammars are tried in the order of the code:
    quantity, unit price and line total; quantity "x" price; bare name and
    price; quantity in parentheses. The first that matches and parses
    decides the line. So the bare grammar, when the two before it pass,
    takes the line with quantity 1 under its own rule (price above 1000,
    name longer than two characters), whether the parenthesized grammar
    matches or not; and the parenthesized grammar, when the three before it
    pass, gives its captured quantity under the rule price > 0 and
    quantity > 0. *)
Theorem item_grammars_in_code_order :
  item_patterns = [item_qty_price_total; item_qty_x_price; item_price; item_paren_qty]
  /\ (forall line item_text amount price,
        Re.found header_words line = false ->
        forallb (Priority.passes_on line) [item_qty_price_total; item_qty_x_price] = true ->
        Re.search item_price line = Some [item_text; amount] ->
        Str.int (Str.digits_only amount) = Some price ->
        items_of_line line
        = if (1000 <? price) && (2 <? String.length (Str.strip item_text))%nat
          then [{| name := Str.strip item_text; quantity := 1; price := price |}]
          else [])
  /\ (forall line item_text qty amount quantity price,
        Re.found header_words line = false ->
        forallb (Priority.passes_on line)
          [item_qty_price_total; item_qty_x_price; item_price] = true ->
        Re.search item_paren_qty line = Some [item_text; qty; amount] ->
        Str.int qty = Some quantity ->
        Str.int (Str.digits_only amount) = Some price ->
        items_of_line line
        = if (0 <? price) && (0 <? quantity)
          then [{| name := Str.strip item_text; quantity := quantity; price := price |}]
          else []).
Proof.
  split; [reflexivity|]. split.
  - intros line item_text amount price not_header passed matched parsed.
    apply (first_completed_match_decides line
             [item_qty_price_total; item_qty_x_price] [item_paren_qty] item_price
             [item_text; amount]); auto.
    cbn [items_of_match]. rewrite parsed. destruct (_ && _); reflexivity.
  - intros line item_text qty amount quantity price not_header passed matched pq pp.
    apply (first_completed_match_decides line
             [item_qty_price_total; item_qty_x_price; item_price] [] item_paren_qty
             [item_text; qty; amount]); auto.
    cbn [items_of_match]. rewrite pq, pp. destruct (_ && _); reflexivity.
Qed.

(** "Teh (2) 5000" goes to the bare grammar, "Teh (2) 500" to the
    parenthesized one. *)
Lemma item_grammars_in_code_order_witness :
  items_of_line "Teh (2) 5000" = [{| name := "Teh (2)"; quantity := 1; price := 5000 |}]
  /\ items_of_line "Teh (2) 500" = [{| name := "Teh"; quantity := 2; price := 500 |}].
Proof.
  destruct item_grammars_in_code_order as (_ & bare & paren).
  split.
  - apply (bare "Teh (2) 5000" "Teh (2)" "5000" 5000); vm_compute; reflexivity.
  - apply (paren "Teh (2) 500" "Teh" "2" "500" 2 500); vm_compute; reflexivity.
Defined.

(** C6 (counterexample). "Teh (2) 5000" matches the parenthesized grammar
    with quantity 2, but the bare grammar comes first in the code and takes
    the line: the item is "Teh (2)" with quantity 1. *)
Lemma paren_line_taken_by_bare_grammar :
  Re.search item_paren_qty "Teh (2) 5000" = Some ["Teh"; "2"; "5000"]
  /\ Re.search item_price "Teh (2) 5000" = Some ["Teh (2)"; "5000"]
  /\ extract_items_smart ["Teh (2) 5000"]
     = [{| name := "Teh (2)"; quantity := 1; price := 5000 |}]
  /\ extract_items_smart ["Teh (2) 5000"]
     <> [{| name := "Teh"; quantity := 2; price := 5000 |}].
Proof. repeat split; try (vm_compute; reflexivity). vm_compute. discriminate. Qed.

(** C7 (amended). Take a line that is not a header and that the first
    grammar matches, whose two amounts hold a digit, whose quantity and
    amounts have at most 4300 digits each (so that [int] reads them), and
    whose line total converts to a float (it is below the float range,
    about 1.8e308). It is accepted exactly when the unit price is positive
    and [|quantity * unit_price - total_price|] is at most the binary64
    product [total_price * 0.15], the 15% of the line total as Python's
    floats round it; the accepted item carries the unit price. *)
Theorem qty_price_total_acceptance
    (line item_text qty unit_amount total_amount : string)
    (quantity unit_price total_price : Z) (total_float : float) :
  Re.found header_words line = false ->
  Re.search item_qty_price_total line
  = Some [item_text; qty; unit_amount; total_amount] ->
  (String.length qty <= 4300)%nat ->
  (String.length (Str.digits_only unit_amount) <= 4300)%nat ->
  (String.length (Str.digits_only total_amount) <= 4300)%nat ->
  Str.int qty = Some quantity ->
  Str.int (Str.digits_only unit_amount) = Some unit_price ->
  Str.int (Str.digits_only total_amount) = Some total_price ->
  Flt.of_int total_price = Some total_float ->
  items_of_line line
  = if (0 <? unit_price)
       && Flt.int_leb (Z.abs (quantity * unit_price - total_price))
                      (PrimFloat.mul total_float 0.15)
    then [{| name := Str.strip item_text; quantity := quantity; price := unit_price |}]
    else [].
Proof.
  intros not_header matched _ _ _ pq pu pt conv.
  apply (first_completed_match_decides line []
           [item_qty_x_price; item_price; item_paren_qty] item_qty_price_total
           [item_text; qty; unit_amount; total_amount]); auto.
  cbn [items_of_match]. rewrite pq, pu, pt. unfold within_tolerance. rewrite conv.
  destruct (0 <? unit_price); [|reflexivity].
  cbn [andb]. destruct (Flt.int_leb _ _); reflexivity.
Qed.

(** Quantity 2 at 1000 with line total 2100 is accepted (100 against 315);
    with line total 2500 it is rejected (500 against 375). *)
Lemma qty_price_total_acceptance_witness :
  items_of_line "Kopi 2 1000 2100" = [{| name := "Kopi"; quantity := 2; price := 1000 |}]
  /\ items_of_line "Kopi 2 1000 2500" = [].
Proof.
  split.
  - apply (qty_price_total_acceptance "Kopi 2 1000 2100" "Kopi" "2" "1000" "2100"
             2 1000 2100 2100%float);
      try (vm_compute; reflexivity); apply Nat.leb_le; vm_compute; reflexivity.
  - apply (qty_price_total_acceptance "Kopi 2 1000 2500" "Kopi" "2" "1000" "2500"
             2 1000 2500 2500%float);
      try (vm_compute; reflexivity); apply Nat.leb_le; vm_compute; reflexivity.
Defined.

(** C7 (counterexample). The line total 100000000000000020 is beyond 2^53:
    its 15% is 15000000000000003, exactly the distance of
    1 * 115000000000000023 from it, but the binary64 product is
    15000000000000002 and the line is rejected. *)
Lemma tolerance_rounded_in_binary64 :
  Re.found header_words "A 1 115000000000000023 100000000000000020" = false
  /\ Re.search item_qty_price_total "A 1 115000000000000023 100000000000000020"
     = Some ["A"; "1"; "115000000000000023"; "100000000000000020"]
  /\ 0 < 115000000000000023
  /\ 100 * Z.abs (1 * 115000000000000023 - 100000000000000020)
     <= 15 * 100000000000000020
  /\ option_map (fun t => PrimFloat.mul t 0.15) (Flt.of_int 100000000000000020)
     = Some 15000000000000002%float
  /\ items_of_line "A 1 115000000000000023 100000000000000020" = [].
Proof. repeat split; try (vm_compute; reflexivity). vm_compute. discriminate. Qed.

(** A line total of 400 nines does not convert to a float: the first
    grammar matches "A 1 1 999...9" but the product raises [OverflowError],
    the line goes on to the later grammars, and the bare grammar takes it
    as the item "A 1 1". *)
Lemma unconvertible_total_passed_on :
  Re.search item_qty_price_total ("A 1 1 " ++ Str.repeat "9" 400)
  = Some ["A"; "1"; "1"; Str.repeat "9" 400]
  /\ Flt.of_int (10 ^ 400 - 1) = None
  /\ items_of_line ("A 1 1 " ++ Str.repeat "9" 400)
     = [{| name := "A 1 1"; quantity := 1; price := 10 ^ 400 - 1 |}].
Proof.
  split; [vm_compute; reflexivity|].
  split; vm_compute; reflexivity.
Qed.

(** The [try] body of a three-group match appends only positive
    quantities; the four-group body has no such test. *)
Lemma three_group_quantity_positive (g0 g1 g2 : string) (its : list LineItem) :
  items_of_match [g0; g1; g2] = Some its ->
  forall it, In it its -> 0 < quantity it.
Proof.
  cbn [items_of_match]. intros H it Hin.
  destruct (Str.int g1) as [q|]; [|discriminate].
  destruct (Str.int (Str.digits_only g2)) as [p|]; [|discriminate].
  destruct (0 <? p) eqn:Hp; cbn [andb] in H.
  - destruct (0 <? q) eqn:Hq; injection H as <-; [|contradiction].
    destruct Hin as [<-|[]]. cbn. now apply Z.ltb_lt.
  - injection H as <-. contradiction.
Qed.

(** C9 (evaluation of the code). "Kopi 0 1000 0" is matched by the first
    grammar with quantity 0; 0 * 1000 is within tolerance of the line total
    0, and the item is kept with quantity 0. The same quantity before "x" is
    refused by the second grammar. *)
Theorem zero_quantity_item_kept (today : string) :
  Re.search item_qty_price_total "Kopi 0 1000 0" = Some ["Kopi"; "0"; "1000"; "0"]
  /\ items (smart_parse_receipt today "Kopi 0 1000 0")
     = [{| name := "Kopi"; quantity := 0; price := 1000 |}]
  /\ items (smart_parse_receipt today "Kopi 0 x 1000") = [placeholder].
Proof. repeat split; vm_compute; reflexivity. Qed.

(** ** Total *)

Lemma digits_only_digits (s : string) :
  Str.forallb Chr.is_digit (Str.digits_only s) = true.
Proof.
  induction s as [|c s IH]; [reflexivity|].
  unfold Str.digits_only in *. cbn [Str.filter].
  destruct (Chr.is_digit c) eqn:E; [cbn [Str.forallb]; now rewrite E|exact IH].
Qed.

(** An accepted amount is the digits of group 1, at least three of them,
    and [int] reads it. *)
Lemma accepted_amount_inv (groups : list string) (amount_str : string) :
  accepted_amount groups = Some amount_str ->
  amount_str = Str.digits_only (hd "" groups)
  /\ (3 <= String.length amount_str)%nat
  /\ Str.forallb Chr.is_digit amount_str = true
  /\ Str.int amount_str = Some (Str.int_acc amount_str 0).
Proof.
  unfold accepted_amount. intros H.
  destruct (negb (Str.is_empty (Str.digits_only (hd "" groups)))) eqn:E1; [|discriminate].
  destruct (3 <=? String.length (Str.digits_only (hd "" groups)))%nat eqn:E2; [|discriminate].
  injection H as <-. apply Nat.leb_le in E2.
  repeat split; auto using digits_only_digits.
  unfold Str.int. rewrite digits_only_digits.
  apply negb_true_iff in E1. rewrite E1. reflexivity.
Qed.

Lemma short_amount_refused (groups : list string) :
  (String.length (Str.digits_only (hd "" groups)) < 3)%nat ->
  accepted_amount groups = None.
Proof.
  intros H. unfold accepted_amount.
  destruct (3 <=? String.length (Str.digits_only (hd "" groups)))%nat eqn:E.
  - apply Nat.leb_le in E. lia.
  - now rewrite andb_false_r.
Qed.

(** The inner loop either finds no accepted amount and keeps the total, or
    takes the amount of the first pattern that gives an accepted one. *)
Lemma total_scan_line_inv (line : string) (pats : list Re.pattern) (current : Z) :
  (forallb (fun q => negb (Priority.accepts line q)) pats = true
   /\ total_scan_line pats line current = current)
  \/ (exists before p after groups amount_str,
        pats = (before ++ p :: after)%list
        /\ forallb (fun q => negb (Priority.accepts line q)) before = true
        /\ Re.search p line = Some groups
        /\ accepted_amount groups = Some amount_str
        /\ total_scan_line pats line current = Str.int_acc amount_str 0).
Proof.
  induction pats as [|q pats IH]; [left; split; reflexivity|].
  cbn [total_scan_line forallb]. unfold Priority.accepts at 1.
  destruct (Re.search q line) as [groups|] eqn:S.
  - destruct (accepted_amount groups) as [a|] eqn:A.
    + right. exists [], q, pats, groups, a. repeat split; auto.
    + destruct IH as [[none same]|(before & p & after & g & a & -> & none & S' & A' & E)].
      * left. split; assumption.
      * right. exists (q :: before), p, after, g, a.
        repeat split; auto. cbn [forallb]. unfold Priority.accepts. now rewrite S, A.
  - destruct IH as [[none same]|(before & p & after & g & a & -> & none & S' & A' & E)].
    + left. split; assumption.
    + right. exists (q :: before), p, after, g, a.
      repeat split; auto. cbn [forallb]. unfold Priority.accepts. now rewrite S.
Qed.

(** The outer loop returns the total it started from, or an accepted amount
    of one of the lines. *)
Lemma total_scan_inv (lines : list string) :
  forall current,
    total_scan lines current = current
    \/ exists line before p after groups amount_str,
         In line lines
         /\ total_patterns = (before ++ p :: after)%list
         /\ forallb (fun q => negb (Priority.accepts line q)) before = true
         /\ Re.search p line = Some groups
         /\ accepted_amount groups = Some amount_str
         /\ total_scan lines current = Str.int_acc amount_str 0.
Proof.
  induction lines as [|line lines IH]; intros current; [left; reflexivity|].
  cbn [total_scan].
  destruct (total_scan_line_inv line total_patterns current)
    as [[_ same]|(before & p & after & g & a & order & none & S & A & E)].
  - rewrite same. destruct (0 <? current); [left; reflexivity|].
    destruct (IH current) as [keep|(l & b & p & af & g & a & inl & rest)];
      [left; exact keep|].
    right. exists l, b, p, af, g, a. split; [right; exact inl|exact rest].
  - destruct (0 <? total_scan_line total_patterns line current) eqn:pos.
    + right. exists line, before, p, after, g, a. repeat split; auto. now left.
    + destruct (IH (total_scan_line total_patterns line current))
        as [keep|(l & b & p' & af & g' & a' & inl & rest)].
      * right. exists line, before, p, after, g, a. rewrite keep.
        repeat split; auto. now left.
      * right. exists l, b, p', af, g', a'. split; [right; exact inl|exact rest].
Qed.

Lemma total_scan_nothing (lines : list string) (current : Z) :
  forallb (fun line => forallb (fun q => negb (Priority.accepts line q)) total_patterns)
    lines = true ->
  total_scan lines current = current.
Proof.
  induction lines as [|line lines IH]; intros H; [reflexivity|].
  cbn [forallb] in H. apply andb_prop in H as [Hl Hls].
  cbn [total_scan].
  destruct (total_scan_line_inv line total_patterns current)
    as [[_ same]|(before & p & after & g & a & order & none & S & A & E)].
  - rewrite same. destruct (0 <? current); auto.
  - rewrite order, forallb_app in Hl. apply andb_prop in Hl as [_ Hp].
    cbn [forallb] in Hp. unfold Priority.accepts in Hp at 1.
    rewrite S, A in Hp. discriminate.
Qed.

(** C8 (amended). A nonzero total is the integer value of a run of at least
    three digits: the digits of group 1 of a match of one of the total
    patterns on one of the lines, namely of the first pattern, in their
    order, whose match on that line gives at least three digits. An amount
    with fewer than three digits is never accepted, and a text none of whose
    lines gives an accepted amount has total 0. *)
Theorem nonzero_total_is_accepted_amount (today text : string) :
  (total (smart_parse_receipt today text) <> 0 ->
   exists line before p after groups amount_str,
     In line (split_lines text)
     /\ total_patterns = (before ++ p :: after)%list
     /\ forallb (fun q => negb (Priority.accepts line q)) before = true
     /\ Re.search p line = Some groups
     /\ amount_str = Str.digits_only (hd "" groups)
     /\ (3 <= String.length amount_str)%nat
     /\ Str.forallb Chr.is_digit amount_str = true
     /\ Str.int amount_str = Some (total (smart_parse_receipt today text)))
  /\ (forall groups,
        (String.length (Str.digits_only (hd "" groups)) < 3)%nat ->
        accepted_amount groups = None)
  /\ (forallb (fun line =>
                 forallb (fun q => negb (Priority.accepts line q)) total_patterns)
        (split_lines text) = true ->
      total (smart_parse_receipt today text) = 0).
Proof.
  change (total (smart_parse_receipt today text)) with (total_scan (split_lines text) 0).
  split; [|split].
  - intros nonzero.
    destruct (total_scan_inv (split_lines text) 0)
      as [keep|(line & before & p & after & g & a & inl & order & none & S & A & E)];
      [contradiction|].
    destruct (accepted_amount_inv _ _ A) as (Ea & len & dig & parsed).
    exists line, before, p, after, g, a. rewrite E. repeat split; auto.
  - exact short_amount_refused.
  - apply total_scan_nothing.
Qed.

(** "TOTAL RP 30000" gives 30000; "Qty 12" gives no accepted amount. *)
Lemma nonzero_total_is_accepted_amount_witness :
  (exists line before p after groups amount_str,
     In line (split_lines "TOTAL RP 30000")
     /\ total_patterns = (before ++ p :: after)%list
     /\ forallb (fun q => negb (Priority.accepts line q)) before = true
     /\ Re.search p line = Some groups
     /\ amount_str = Str.digits_only (hd "" groups)
     /\ (3 <= String.length amount_str)%nat
     /\ Str.forallb Chr.is_digit amount_str = true
     /\ Str.int amount_str = Some (total (smart_parse_receipt "2026-11-03" "TOTAL RP 30000")))
  /\ total (smart_parse_receipt "2026-11-03" "Qty 12") = 0.
Proof.
  split.
  - apply (proj1 (nonzero_total_is_accepted_amount "2026-11-03" "TOTAL RP 30000")).
    vm_compute. discriminate.
  - apply (proj2 (proj2 (nonzero_total_is_accepted_amount "2026-11-03" "Qty 12"))).
    vm_compute. reflexivity.
Defined.

(** C8 (counterexample). On "TOTAL 12 RP 5000" the first total pattern that
    matches is the keyword pattern, with the two digits "12"; the total,
    5000, is the amount of the second pattern. *)
Lemma total_from_later_pattern :
  split_lines "TOTAL 12 RP 5000" = ["TOTAL 12 RP 5000"]
  /\ hd_error total_patterns = Some total_keyword
  /\ Re.search total_keyword "TOTAL 12 RP 5000" = Some ["12"]
  /\ Re.search total_currency "TOTAL 12 RP 5000" = Some ["5000"]
  /\ total (smart_parse_receipt "2026-11-03" "TOTAL 12 RP 5000") = 5000.
Proof. repeat split; vm_compute; reflexivity. Qed.

(** * Further properties of the parser and of the code around it *)

(** ** Strings *)

Lemma length_rev_onto (s acc : string) :
  String.length (Str.rev_onto s acc) = (String.length s + String.length acc)%nat.
Proof.
  revert acc; induction s as [|c s IH]; intros acc; cbn; [reflexivity|].
  rewrite IH. cbn. lia.
Qed.

Lemma str_length_rev (s : string) : String.length (Str.rev s) = String.length s.
Proof. unfold Str.rev. rewrite length_rev_onto. cbn. lia. Qed.

Lemma append_empty_r (s : string) : s ++ "" = s.
Proof. induction s as [|c s IH]; cbn; [reflexivity|now rewrite IH]. Qed.

Lemma append_assoc (a b c : string) : (a ++ b) ++ c = a ++ (b ++ c).
Proof. induction a as [|x a IH]; cbn; [reflexivity|now rewrite IH]. Qed.

Lemma rev_onto_app (s acc : string) : Str.rev_onto s acc = Str.rev s ++ acc.
Proof.
  unfold Str.rev. revert acc; induction s as [|c s IH]; intros acc; cbn; [reflexivity|].
  rewrite IH, (IH (String c "")), append_assoc. reflexivity.
Qed.

Lemma str_rev_app (a b : string) : Str.rev (a ++ b) = Str.rev b ++ Str.rev a.
Proof.
  induction a as [|x a IH]; cbn.
  - now rewrite append_empty_r.
  - change (Str.rev (String x (a ++ b))) with (Str.rev_onto (a ++ b) (String x "")).
    change (Str.rev (String x a)) with (Str.rev_onto a (String x "")).
    rewrite !rev_onto_app, IH, append_assoc. reflexivity.
Qed.

Lemma str_rev_involutive (s : string) : Str.rev (Str.rev s) = s.
Proof.
  induction s as [|c s IH]; [reflexivity|].
  change (Str.rev (String c s)) with (Str.rev_onto s (String c "")).
  rewrite rev_onto_app, str_rev_app, IH. reflexivity.
Qed.

Lemma str_forallb_app (p : ascii -> bool) (a b : string) :
  Str.forallb p (a ++ b) = Str.forallb p a && Str.forallb p b.
Proof.
  induction a as [|x a IH]; cbn; [reflexivity|]. rewrite IH. now destruct (p x).
Qed.

Lemma str_forallb_rev (p : ascii -> bool) (s : string) :
  Str.forallb p (Str.rev s) = Str.forallb p s.
Proof.
  induction s as [|c s IH]; [reflexivity|].
  change (Str.rev (String c s)) with (Str.rev_onto s (String c "")).
  rewrite rev_onto_app, str_forallb_app, IH.
  cbn. rewrite andb_true_r. apply andb_comm.
Qed.

(** [lstrip] removes a prefix of white space and stops at the first other
    character. *)
Lemma lstrip_spec (s : string) :
  exists sp, s = sp ++ Str.lstrip s
    /\ Str.forallb Chr.is_space sp = true
    /\ Order.first_ok (Str.lstrip s) = true.
Proof.
  induction s as [|c s (sp & E & all & ok)].
  - exists "". auto.
  - cbn [Str.lstrip]. destruct (Chr.is_space c) eqn:sc.
    + exists (String c sp). cbn. rewrite sc, all, <- E. auto.
    + exists "". cbn. rewrite sc. auto.
Qed.

Lemma lstrip_fixed (s : string) : Order.first_ok s = true -> Str.lstrip s = s.
Proof.
  destruct s as [|c s]; [reflexivity|]. cbn. now destruct (Chr.is_space c).
Qed.

Lemma first_ok_prefix (a b : string) :
  Order.first_ok (a ++ b) = true -> Order.first_ok a = true.
Proof. destruct a; [reflexivity|exact (fun H => H)]. Qed.

Lemma strip_trimmed (s : string) : Order.trimmed (Str.strip s) = true.
Proof.
  unfold Order.trimmed, Str.strip.
  destruct (lstrip_spec s) as (sp1 & E1 & all1 & ok1).
  destruct (lstrip_spec (Str.rev (Str.lstrip s))) as (sp2 & E2 & all2 & ok2).
  rewrite str_rev_involutive, ok2, andb_true_r.
  apply (f_equal Str.rev) in E2. rewrite str_rev_involutive, str_rev_app in E2.
  rewrite E2 in ok1. now apply first_ok_prefix in ok1.
Qed.

Lemma strip_fixed (s : string) : Order.trimmed s = true -> Str.strip s = s.
Proof.
  unfold Order.trimmed, Str.strip. intros H. apply andb_prop in H as [a b].
  rewrite (lstrip_fixed s a), (lstrip_fixed _ b). apply str_rev_involutive.
Qed.

Lemma strip_idempotent (s : string) : Str.strip (Str.strip s) = Str.strip s.
Proof. apply strip_fixed, strip_trimmed. Qed.

Lemma str_forallb_lstrip (p : ascii -> bool) (s : string) :
  Str.forallb p s = true -> Str.forallb p (Str.lstrip s) = true.
Proof.
  induction s as [|c s IH]; [reflexivity|]. intros H. cbn [Str.lstrip].
  destruct (Chr.is_space c); [|exact H].
  cbn in H. apply andb_prop in H as [_ H]. now apply IH.
Qed.

Lemma str_forallb_strip (p : ascii -> bool) (s : string) :
  Str.forallb p s = true -> Str.forallb p (Str.strip s) = true.
Proof.
  intros H. unfold Str.strip.
  rewrite str_forallb_rev. apply str_forallb_lstrip. rewrite str_forallb_rev.
  now apply str_forallb_lstrip.
Qed.

Lemma lstrip_blank (s : string) :
  Str.forallb Chr.is_space s = true -> Str.lstrip s = "".
Proof.
  induction s as [|c s IH]; [reflexivity|]. cbn. intros H.
  apply andb_prop in H as [sc H]. rewrite sc. now apply IH.
Qed.

Lemma strip_blank (s : string) :
  Str.forallb Chr.is_space s = true -> Str.strip s = "".
Proof. intros H. unfold Str.strip. now rewrite (lstrip_blank s H). Qed.

Lemma length_lstrip (s : string) :
  (String.length (Str.lstrip s) <= String.length s)%nat.
Proof.
  induction s as [|c s IH]; cbn; [lia|]. destruct (Chr.is_space c); cbn; lia.
Qed.

Lemma length_strip (s : string) :
  (String.length (Str.strip s) <= String.length s)%nat.
Proof.
  unfold Str.strip. rewrite str_length_rev.
  pose proof (length_lstrip (Str.rev (Str.lstrip s))) as H.
  rewrite str_length_rev in H. pose proof (length_lstrip s). lia.
Qed.

(** ** Lines *)

Lemma split_on_fields (p : ascii -> bool) (sep : ascii) (s : string) :
  forall cur,
    Str.forallb p s = true -> Str.forallb p cur = true ->
    Forall (fun f => Str.forallb p f = true) (Str.split_on sep s cur).
Proof.
  induction s as [|c s IH]; intros cur Hs Hc; cbn [Str.split_on].
  - constructor; [|constructor]. now rewrite str_forallb_rev.
  - cbn in Hs. apply andb_prop in Hs as [pc Hs].
    destruct (Ascii.eqb c sep).
    + constructor; [now rewrite str_forallb_rev|]. now apply IH.
    + apply IH; [exact Hs|]. cbn. now rewrite pc.
Qed.

Lemma split_on_no_sep (sep : ascii) (s : string) :
  forall cur,
    Str.forallb (fun c => negb (Ascii.eqb c sep)) cur = true ->
    Forall (fun f => Str.forallb (fun c => negb (Ascii.eqb c sep)) f = true)
      (Str.split_on sep s cur).
Proof.
  induction s as [|c s IH]; intros cur Hc; cbn [Str.split_on].
  - constructor; [|constructor]. now rewrite str_forallb_rev.
  - destruct (Ascii.eqb c sep) eqn:E.
    + constructor; [now rewrite str_forallb_rev|]. now apply IH.
    + apply IH. cbn. now rewrite E.
Qed.

Lemma not_line_feed_any (c : ascii) :
  negb (Ascii.eqb c "010") = true -> Chr.is_any c = true.
Proof.
  unfold Chr.is_any, Chr.code. intros H.
  destruct (nat_of_ascii c =? 10)%nat eqn:E; [|reflexivity].
  apply Nat.eqb_eq in E. apply (f_equal ascii_of_nat) in E.
  rewrite ascii_nat_embedding in E. subst c. discriminate H.
Qed.

Lemma forallb_weaken (p q : ascii -> bool) (s : string) :
  (forall c, p c = true -> q c = true) ->
  Str.forallb p s = true -> Str.forallb q s = true.
Proof.
  intros pq. induction s as [|c s IH]; [reflexivity|]. cbn. intros H.
  apply andb_prop in H as [pc H]. now rewrite (pq c pc), IH.
Qed.

Lemma split_lines_inv (text line : string) :
  In line (split_lines text) ->
  exists field, In field (Str.split "010" text)
    /\ line = Str.strip field /\ Str.is_empty (Str.strip field) = false.
Proof.
  unfold split_lines. intros H. apply in_map_iff in H as (field & <- & H).
  apply filter_In in H as [inf ne]. exists field. repeat split; auto.
  now apply negb_true_iff in ne.
Qed.

(** Every line the parser works on is non-empty, starts and ends with a
    character that is not white space (so stripping it again changes
    nothing), and holds no line feed (so [.] matches each of its
    characters). *)
Theorem lines_are_trimmed (text : string) :
  Forall (fun line =>
            line <> "" /\ Order.trimmed line = true /\ Str.strip line = line
            /\ Str.forallb Chr.is_any line = true)
    (split_lines text).
Proof.
  apply Forall_forall. intros line H.
  apply split_lines_inv in H as (field & inf & -> & ne).
  repeat split.
  - intros E. rewrite E in ne. discriminate.
  - apply strip_trimmed.
  - apply strip_idempotent.
  - apply str_forallb_strip.
    pose proof (split_on_no_sep "010" text "" eq_refl) as F.
    rewrite Forall_forall in F. specialize (F field inf).
    revert F. apply forallb_weaken. exact not_line_feed_any.
Qed.

Lemma filter_none {A : Type} (f : A -> bool) (l : list A) :
  Forall (fun x => f x = false) l -> List.filter f l = [].
Proof.
  induction 1 as [|x l fx _ IH]; [reflexivity|]. cbn. now rewrite fx.
Qed.

Lemma blank_text_no_lines (text : string) :
  Str.forallb Chr.is_space text = true -> split_lines text = [].
Proof.
  intros blank. unfold split_lines. rewrite filter_none; [reflexivity|].
  pose proof (split_on_fields Chr.is_space "010" text "" blank eq_refl) as F.
  revert F. apply Forall_impl. intros field all.
  now rewrite (strip_blank field all).
Qed.

(** A text of white space only (the empty text too) has no line: the parse
    is all defaults, and only the length of the text can score. *)
Theorem blank_text_defaults (today text : string) :
  Str.forallb Chr.is_space text = true ->
  merchantName (smart_parse_receipt today text) = ""
  /\ date (smart_parse_receipt today text) = today
  /\ items (smart_parse_receipt today text) = [placeholder]
  /\ total (smart_parse_receipt today text) = 0
  /\ confidence (smart_parse_receipt today text)
     = (if (50 <? String.length text)%nat then 0.15 else 0)%float.
Proof.
  intros blank. unfold smart_parse_receipt, calculate_confidence.
  rewrite (blank_text_no_lines text blank).
  destruct (50 <? String.length text)%nat; repeat split; vm_compute; reflexivity.
Qed.

(** The empty text, and sixty blanks. *)
Lemma blank_text_defaults_witness :
  confidence (smart_parse_receipt "2026-11-03" "") = 0%float
  /\ items (smart_parse_receipt "2026-11-03" (Str.repeat " " 60)) = [placeholder]
  /\ confidence (smart_parse_receipt "2026-11-03" (Str.repeat " " 60)) = 0.15%float.
Proof.
  destruct (blank_text_defaults "2026-11-03" "" eq_refl) as (_ & _ & _ & _ & c0).
  assert (Str.forallb Chr.is_space (Str.repeat " " 60) = true) as blank
    by (vm_compute; reflexivity).
  destruct (blank_text_defaults "2026-11-03" (Str.repeat " " 60) blank)
    as (_ & _ & i60 & _ & c60).
  split; [exact c0 | split; [exact i60 | exact c60]].
Defined.

(** ** Merchant name *)

Lemma str_length_map (f : ascii -> ascii) (s : string) :
  String.length (Str.map f s) = String.length s.
Proof. induction s as [|c s IH]; cbn; [reflexivity|now rewrite IH]. Qed.

Lemma length_append (a b : string) :
  String.length (a ++ b) = (String.length a + String.length b)%nat.
Proof. induction a as [|c a IH]; cbn; [reflexivity|now rewrite IH]. Qed.

Lemma length_join_cons (x : string) (l : list string) :
  (String.length (Str.join " " (x :: l))
   <= String.length x + 1 + String.length (Str.join " " l))%nat.
Proof.
  destruct l as [|y l]; [cbn [Str.join]; lia|].
  change (Str.join " " (x :: y :: l)) with (x ++ " " ++ Str.join " " (y :: l)).
  rewrite !length_append. cbn [String.length]. lia.
Qed.

(** Joining the words of a string with single blanks never makes it
    longer. *)
Lemma length_words_from (s : string) :
  forall cur,
    (String.length (Str.join " " (Str.words_from s cur))
     <= String.length s + String.length cur)%nat.
Proof.
  induction s as [|c s IH]; intros cur; cbn [Str.words_from].
  - destruct cur as [|x cur]; cbn [Str.is_empty Str.join]; [cbn; lia|].
    rewrite str_length_rev. lia.
  - destruct (Chr.is_space c).
    + destruct cur as [|x cur]; cbn [Str.is_empty].
      * specialize (IH ""). cbn in *. lia.
      * pose proof (length_join_cons (Str.rev (String x cur)) (Str.words_from s "")) as J.
        rewrite str_length_rev in J. specialize (IH ""). cbn in *. lia.
    + specialize (IH (String c cur)). cbn in *. lia.
Qed.

Lemma forallb_join (q : ascii -> bool) (l : list string) :
  q " "%char = true ->
  Forall (fun w => Str.forallb q w = true) l ->
  Str.forallb q (Str.join " " l) = true.
Proof.
  intros blank. induction 1 as [|w l qw _ IH]; [reflexivity|].
  destruct l as [|y l]; [exact qw|].
  change (Str.join " " (w :: y :: l)) with (w ++ " " ++ Str.join " " (y :: l)).
  rewrite !str_forallb_app, qw, IH. cbn. now rewrite blank.
Qed.

(** The words hold the characters of the string that are not white
    space. *)
Lemma forallb_words_from (p q : ascii -> bool) (s : string) :
  (forall c, p c = true -> Chr.is_space c = false -> q c = true) ->
  forall cur,
    Str.forallb p s = true -> Str.forallb q cur = true ->
    Forall (fun w => Str.forallb q w = true) (Str.words_from s cur).
Proof.
  intros pq. induction s as [|c s IH]; intros cur Hs Hc; cbn [Str.words_from].
  - destruct (Str.is_empty cur); constructor; [|constructor].
    now rewrite str_forallb_rev.
  - cbn in Hs. apply andb_prop in Hs as [pc Hs].
    destruct (Chr.is_space c) eqn:sc.
    + destruct (Str.is_empty cur); [now apply IH|].
      constructor; [now rewrite str_forallb_rev|now apply IH].
    + apply IH; [exact Hs|]. cbn. now rewrite (pq c pc sc).
Qed.

Lemma str_forallb_map (p : ascii -> bool) (f : ascii -> ascii) (s : string) :
  (forall c, p (f c) = true) -> Str.forallb p (Str.map f s) = true.
Proof.
  intros H. induction s as [|c s IH]; [reflexivity|]. cbn. now rewrite H, IH.
Qed.

Lemma clean_name_chars (line : string) :
  Str.forallb Names.name_char (clean_name line) = true.
Proof.
  unfold clean_name, Str.words. apply forallb_join; [reflexivity|].
  apply (forallb_words_from
           (fun c => Chr.is_word c || Chr.is_space c
                     || Chr.one_of ["&"; "."; "-"]%char c)).
  - intros c keep sc. unfold Names.name_char. rewrite sc, orb_false_r in keep.
    now rewrite keep.
  - apply str_forallb_map. intros c.
    destruct (Chr.is_word c || Chr.is_space c
              || Chr.one_of ["&"; "."; "-"]%char c) eqn:E; [exact E|reflexivity].
  - reflexivity.
Qed.

Lemma clean_name_length (line : string) :
  (String.length (clean_name line) <= String.length line)%nat.
Proof.
  unfold clean_name, Str.words.
  pose proof (length_words_from
                (Str.map (fun c => if Chr.is_word c || Chr.is_space c
                                      || Chr.one_of ["&"; "."; "-"]%char c
                                   then c else " "%char) line) "") as H.
  rewrite str_length_map in H. change (String.length "") with 0%nat in H.
  rewrite Nat.add_0_r in H. exact H.
Qed.

Lemma merchant_scan_inv (lines : list string) :
  merchant_scan lines = ""
  \/ exists line, In line lines
       /\ Re.found digit_run line = false
       /\ merchant_scan lines = clean_name line
       /\ (3 < String.length (clean_name line))%nat
       /\ (String.length line < 50)%nat.
Proof.
  induction lines as [|line lines IH]; [left; reflexivity|].
  cbn [merchant_scan].
  assert (next : merchant_scan lines = ""
                 \/ exists l, In l (line :: lines)
                      /\ Re.found digit_run l = false
                      /\ merchant_scan lines = clean_name l
                      /\ (3 < String.length (clean_name l))%nat
                      /\ (String.length l < 50)%nat).
  { destruct IH as [e|(l & inl & rest)]; [left; exact e|].
    right. exists l. split; [right; exact inl|exact rest]. }
  destruct (Re.found digit_run line) eqn:F; cbn [negb andb]; [exact next|].
  destruct (3 <? String.length line)%nat; cbn [andb]; [|exact next].
  destruct (String.length line <? 50)%nat eqn:L; [|exact next].
  destruct (3 <? String.length (clean_name line))%nat eqn:C; [|exact next].
  right. exists line. apply Nat.ltb_lt in L, C. repeat split; auto. now left.
Qed.

(** The merchant name is empty, or it is the cleaned form of one of the
    first five lines, one without a run of three digits: longer than 3 and
    shorter than 50 characters, made of word characters, [&], [.], [-] and
    blanks only. Lines after the fifth never give the name. *)
Theorem merchant_name_bounds (today text : string) :
  merchantName (smart_parse_receipt today text) = ""
  \/ exists line,
       In line (firstn 5 (split_lines text))
       /\ Re.found digit_run line = false
       /\ merchantName (smart_parse_receipt today text) = clean_name line
       /\ (3 < String.length (merchantName (smart_parse_receipt today text)) < 50)%nat
       /\ Str.forallb Names.name_char (merchantName (smart_parse_receipt today text)) = true.
Proof.
  change (merchantName (smart_parse_receipt today text))
    with (merchant_scan (firstn 5 (split_lines text))).
  destruct (merchant_scan_inv (firstn 5 (split_lines text)))
    as [e|(line & inl & nodigits & E & long & short)]; [left; exact e|].
  right. exists line. rewrite E. pose proof (clean_name_length line).
  repeat split; auto using clean_name_chars; lia.
Qed.

(** ** Dates: the default and the shape *)

(** Without a line that a numeric date pattern matches the date stays the
    default, the current date; a line with a month name counts for
    nothing. *)
Theorem date_default_without_numeric_date (today text : string) :
  forallb (fun l => negb (Dates.has_numeric_date l)) (split_lines text) = true ->
  date (smart_parse_receipt today text) = today.
Proof. intros H. rewrite date_of_parse. now apply extract_date_keeps. Qed.

(** A receipt whose only date is written with a month name. *)
Lemma date_default_without_numeric_date_witness :
  date (smart_parse_receipt "2026-11-03"
          ("Toko Maju Jaya" ++ nl ++ "3 Mar 2021" ++ nl ++ "Kopi 2 x 15000"))
  = "2026-11-03".
Proof.
  apply (date_default_without_numeric_date "2026-11-03").
  vm_compute. reflexivity.
Defined.

(** The groups of a year/month/day match: two to four digits, one or two
    digits, one or two digits. *)
Lemma date_ymd_groups (line year month day : string) :
  Re.search date_ymd line = Some [year; month; day] ->
  (Str.forallb Chr.is_digit year = true /\ (2 <= String.length year <= 4)%nat)
  /\ (Str.forallb Chr.is_digit month = true /\ (1 <= String.length month <= 2)%nat)
  /\ (Str.forallb Chr.is_digit day = true /\ (1 <= String.length day <= 2)%nat).
Proof.
  unfold Re.search.
  destruct (Re.search_from (Re.expr date_ymd) 0 line) as [m|] eqn:S; [|discriminate].
  intros G. apply search_from_inv in S. destruct S as (j & s & S).
  cbn [Re.expr date_ymd Re.cat Re.times Re.run] in S.
  apply rep_greedy_inv in S.
  destruct S as (n1 & lo1 & hi1 & len1 & all1 & S).
  destruct (Str.drop n1 s) as [|c1 s1]; [discriminate|].
  destruct (date_sep c1); [|discriminate].
  apply rep_greedy_inv in S.
  destruct S as (n2 & lo2 & hi2 & len2 & all2 & S).
  destruct (Str.drop n2 s1) as [|c2 s2]; [discriminate|].
  destruct (date_sep c2); [|discriminate].
  apply rep_greedy_inv in S.
  destruct S as (n3 & lo3 & hi3 & len3 & all3 & S).
  injection S as <-.
  cbn in G. injection G as <- <- <-.
  specialize (hi1 _ eq_refl). specialize (hi2 _ eq_refl). specialize (hi3 _ eq_refl).
  assert (E : forall a b, (a + b - a)%nat = b) by (intros; lia).
  rewrite !E, len1, len2, len3, all1, all2, all3. repeat split; auto; lia.
Qed.

(** The search of a pattern with three groups gives three texts. *)
Lemma search_three_groups (p : Re.pattern) (line : string) (groups : list string) :
  Re.ngroups p = 3%nat -> Re.search p line = Some groups ->
  exists a b c, groups = [a; b; c].
Proof.
  unfold Re.search. intros three H.
  destruct (Re.search_from (Re.expr p) 0 line); [|discriminate].
  injection H as <-. rewrite three. cbn. eauto.
Qed.

Lemma zfill2_shape (s : string) :
  Str.forallb Chr.is_digit s = true -> (1 <= String.length s <= 2)%nat ->
  Str.forallb Chr.is_digit (Str.zfill 2 s) = true
  /\ String.length (Str.zfill 2 s) = 2%nat.
Proof.
  intros all len. destruct (zfill2_digits s all len) as (a & b & -> & da & db').
  cbn. now rewrite da, db'.
Qed.

(** What one line makes of the date: nothing, or digits in the shape
    year-month-day, the year of two to four digits, month and day of two. *)
Lemma date_scan_line_shape (line current : string) :
  date_scan_line (indexed date_patterns) line current = current
  \/ exists y m d,
       date_scan_line (indexed date_patterns) line current = y ++ "-" ++ m ++ "-" ++ d
       /\ (Str.forallb Chr.is_digit y = true /\ (2 <= String.length y <= 4)%nat)
       /\ (Str.forallb Chr.is_digit m = true /\ String.length m = 2%nat)
       /\ (Str.forallb Chr.is_digit d = true /\ String.length d = 2%nat).
Proof.
  rewrite date_scan_line_patterns.
  destruct (Re.search date_dmy line) as [g|] eqn:S1.
  - destruct (search_three_groups date_dmy _ _ eq_refl S1) as (day & month & year & ->).
    destruct (date_dmy_groups _ _ _ _ S1) as ((dd & ld) & (dm & lm) & (dy & ly)).
    right. cbn [date_of_match].
    exists (if (String.length year =? 2)%nat then "20" ++ year else year),
      (Str.zfill 2 month), (Str.zfill 2 day).
    split; [reflexivity|]. split; [|split; now apply zfill2_shape].
    destruct (String.length year =? 2)%nat eqn:two.
    + apply Nat.eqb_eq in two. cbn. rewrite dy, two. split; [reflexivity|lia].
    + split; [exact dy|lia].
  - destruct (Re.search date_ymd line) as [g|] eqn:S2; [|left; reflexivity].
    destruct (search_three_groups date_ymd _ _ eq_refl S2) as (year & month & day & ->).
    destruct (date_ymd_groups _ _ _ _ S2) as ((dy & ly) & (dm & lm) & (dd & ld)).
    right. cbn [date_of_match].
    exists year, (Str.zfill 2 month), (Str.zfill 2 day).
    split; [reflexivity|]. split; [split; [exact dy|lia]|].
    split; now apply zfill2_shape.
Qed.

(** The date of a parse is the default or digits in the shape
    year-month-day with a two-digit month and a two-digit day; the year has
    two to four digits (two only from a year/month/day match). No month
    name and no single-digit month or day ever reaches the output. *)
Theorem date_is_default_or_numeric (today text : string) :
  date (smart_parse_receipt today text) = today
  \/ exists y m d,
       date (smart_parse_receipt today text) = y ++ "-" ++ m ++ "-" ++ d
       /\ (Str.forallb Chr.is_digit y = true /\ (2 <= String.length y <= 4)%nat)
       /\ (Str.forallb Chr.is_digit m = true /\ String.length m = 2%nat)
       /\ (Str.forallb Chr.is_digit d = true /\ String.length d = 2%nat).
Proof.
  rewrite date_of_parse. unfold extract_date.
  generalize (split_lines text) as lines. intros lines.
  rewrite <- (List.rev_involutive lines). generalize (rev lines) as l. clear lines.
  induction l as [|line l IH]; [left; reflexivity|].
  cbn [rev]. rewrite fold_left_app. cbn [fold_left].
  destruct (date_scan_line_shape line
              (fold_left (fun d ln => date_scan_line (indexed date_patterns) ln d)
                 (rev l) today)) as [same|shaped].
  - rewrite same. exact IH.
  - right. exact shaped.
Qed.

Lemma numeric_date_overrides (line current other : string) :
  Dates.has_numeric_date line = true ->
  date_scan_line (indexed date_patterns) line current
  = date_scan_line (indexed date_patterns) line other.
Proof.
  unfold Dates.has_numeric_date, Re.found. rewrite !date_scan_line_patterns.
  destruct (Re.search date_dmy line) as [g|] eqn:S1.
  - destruct (search_three_groups date_dmy _ _ eq_refl S1) as (a & b & c & ->).
    reflexivity.
  - destruct (Re.search date_ymd line) as [g|] eqn:S2; [|discriminate].
    destruct (search_three_groups date_ymd _ _ eq_refl S2) as (a & b & c & ->).
    reflexivity.
Qed.

(** The date scan runs to the end: the date is the one of the last line
    that a numeric date pattern matches: what that line alone gives,
    whatever the lines before it hold and whatever the default. *)
Theorem last_numeric_date_wins
    (today text : string) (before after : list string) (line : string) :
  split_lines text = (before ++ line :: after)%list ->
  Dates.has_numeric_date line = true ->
  forallb (fun l => negb (Dates.has_numeric_date l)) after = true ->
  forall other, date (smart_parse_receipt today text) = extract_date [line] other.
Proof.
  intros lines_eq dated rest_plain other.
  rewrite date_of_parse, lines_eq, extract_date_last by assumption.
  unfold extract_date at 2. cbn [fold_left]. now apply numeric_date_overrides.
Qed.

(** Three dated lines: the third decides. *)
Lemma last_numeric_date_wins_witness :
  date (smart_parse_receipt "2026-11-03"
          ("01/02/2024" ++ nl ++ "2023/3/4" ++ nl ++ "05-06-25" ++ nl ++ "Kopi"))
  = "2025-06-05".
Proof.
  refine (last_numeric_date_wins "2026-11-03" _
            ["01/02/2024"; "2023/3/4"] ["Kopi"] "05-06-25" _ _ _ "");
    vm_compute; reflexivity.
Defined.

(** ** Total: sign, and where the scan stops *)

Lemma digit_value_nonneg (c : ascii) :
  Chr.is_digit c = true -> 0 <= Str.digit_value c <= 9.
Proof.
  unfold Chr.is_digit, Chr.between, Str.digit_value. intros H.
  apply andb_prop in H as [lo hi].
  apply Nat.leb_le in lo, hi. lia.
Qed.

Lemma int_acc_nonneg (s : string) :
  forall acc, Str.forallb Chr.is_digit s = true -> 0 <= acc -> 0 <= Str.int_acc s acc.
Proof.
  induction s as [|c s IH]; intros acc all pos; [exact pos|].
  cbn in all. apply andb_prop in all as [dc all]. cbn [Str.int_acc].
  apply IH; [exact all|]. pose proof (digit_value_nonneg c dc). lia.
Qed.

(** The total is never negative. *)
Theorem total_nonnegative (today text : string) :
  0 <= total (smart_parse_receipt today text).
Proof.
  change (total (smart_parse_receipt today text)) with (total_scan (split_lines text) 0).
  destruct (total_scan_inv (split_lines text) 0)
    as [keep|(line & before & p & after & g & a & _ & _ & _ & _ & A & E)].
  - rewrite keep. lia.
  - rewrite E. destruct (accepted_amount_inv _ _ A) as (_ & _ & dig & _).
    apply int_acc_nonneg; [exact dig|lia].
Qed.

Lemma total_scan_app (before after : list string) :
  forall current,
    current <= 0 ->
    total_scan (before ++ after) current
    = if 0 <? total_scan before current then total_scan before current
      else total_scan after (total_scan before current).
Proof.
  induction before as [|line before IH]; intros current neg.
  - cbn. destruct (0 <? current) eqn:E; [apply Z.ltb_lt in E; lia|reflexivity].
  - cbn [app total_scan].
    destruct (0 <? total_scan_line total_patterns line current) eqn:E.
    + now rewrite E.
    + apply IH. apply Z.ltb_ge in E. exact E.
Qed.

(** The scan for the total stops at the first line that gives a positive
    amount: when the lines before it leave the total at 0, the total is the
    amount of that line, whatever the lines after it hold. (The date scan
    has no such stop.) *)
Theorem total_first_positive_line
    (today text : string) (before after : list string) (line : string) :
  split_lines text = (before ++ line :: after)%list ->
  extract_total before = 0 ->
  0 < total_scan_line total_patterns line 0 ->
  total (smart_parse_receipt today text) = total_scan_line total_patterns line 0.
Proof.
  intros lines_eq none pos.
  change (total (smart_parse_receipt today text)) with (total_scan (split_lines text) 0).
  unfold extract_total in none.
  rewrite lines_eq, total_scan_app, none by lia.
  cbn [total_scan Z.ltb Z.compare]. apply Z.ltb_lt in pos. now rewrite pos.
Qed.

(** The amount paid, on a line after the total, is not taken. *)
Lemma total_first_positive_line_witness :
  total (smart_parse_receipt "2026-11-03"
           ("Kopi 5000" ++ nl ++ "TOTAL RP 30000" ++ nl ++ "TUNAI RP 50000")) = 30000.
Proof.
  apply (total_first_positive_line "2026-11-03" _
           ["Kopi 5000"] ["TUNAI RP 50000"] "TOTAL RP 30000");
    vm_compute; reflexivity.
Defined.

(** ** Deduplication *)

Lemma key_eqb_eq (a b : string * Z) : key_eqb a b = true <-> a = b.
Proof.
  destruct a as [a1 a2], b as [b1 b2]. unfold key_eqb. cbn [fst snd].
  rewrite andb_true_iff, String.eqb_eq, Z.eqb_eq.
  split; [intros [-> ->]; reflexivity|intros E; injection E as -> ->; auto].
Qed.

Lemma seen_In (key : string * Z) (seen : list (string * Z)) :
  existsb (key_eqb key) seen = true <-> In key seen.
Proof.
  rewrite existsb_exists. split.
  - intros (k & ink & E). apply key_eqb_eq in E. now subst.
  - intros H. exists key. split; [exact H|now apply key_eqb_eq].
Qed.

Lemma seen_not_In (key : string * Z) (seen : list (string * Z)) :
  existsb (key_eqb key) seen = false <-> ~ In key seen.
Proof.
  rewrite <- seen_In. destruct (existsb (key_eqb key) seen); split; intros H;
    try discriminate; auto. now elim H.
Qed.

(** What [dedup] keeps: items of the list, with a name and a positive
    price, whose key was not seen before. *)
Lemma dedup_In (its : list LineItem) :
  forall seen it,
    In it (dedup its seen) ->
    In it its /\ name it <> "" /\ 0 < price it /\ ~ In (item_key it) seen.
Proof.
  induction its as [|x its IH]; intros seen it H; [contradiction|].
  cbn [dedup] in H.
  destruct (negb (Str.is_empty (name x)) && (0 <? price x)) eqn:V.
  - destruct (existsb (key_eqb (item_key x)) seen) eqn:S.
    + destruct (IH _ _ H) as (i & r). split; [now right|exact r].
    + destruct H as [<-|H].
      * apply andb_prop in V as [n p]. apply Z.ltb_lt in p.
        repeat split; [now left| |exact p|now apply seen_not_In].
        intros E. rewrite E in n. discriminate.
      * destruct (IH _ _ H) as (i & n & p & ns). repeat split; auto; [now right|].
        intros ins. apply ns. now right.
  - destruct (IH _ _ H) as (i & r). split; [now right|exact r].
Qed.

Lemma dedup_NoDup (its : list LineItem) :
  forall seen, NoDup (List.map item_key (dedup its seen)).
Proof.
  induction its as [|x its IH]; intros seen; [constructor|].
  cbn [dedup].
  destruct (negb (Str.is_empty (name x)) && (0 <? price x)); [|apply IH].
  destruct (existsb (key_eqb (item_key x)) seen); [apply IH|].
  cbn [List.map]. constructor; [|apply IH].
  intros H. apply in_map_iff in H as (it & E & H).
  apply dedup_In in H as (_ & _ & _ & ns). apply ns. left. now symmetry.
Qed.

Lemma dedup_subseq (its : list LineItem) :
  forall seen, Order.subseq (dedup its seen) its.
Proof.
  induction its as [|x its IH]; intros seen; [constructor|].
  cbn [dedup].
  destruct (negb (Str.is_empty (name x)) && (0 <? price x));
    [|apply Order.subseq_skip, IH].
  destruct (existsb (key_eqb (item_key x)) seen);
    [apply Order.subseq_skip, IH|apply Order.subseq_keep, IH].
Qed.

(** Every item with a name and a positive price is represented: its key
    was seen before or is the key of a kept item. *)
Lemma dedup_complete (its : list LineItem) :
  forall seen it,
    In it its -> name it <> "" -> 0 < price it ->
    In (item_key it) seen
    \/ exists kept, In kept (dedup its seen) /\ item_key kept = item_key it.
Proof.
  induction its as [|x its IH]; intros seen it H n p; [contradiction|].
  cbn [dedup]. destruct H as [->|H].
  - assert (negb (Str.is_empty (name it)) && (0 <? price it) = true) as V.
    { apply andb_true_intro. split; [|now apply Z.ltb_lt].
      destruct (name it); [now elim n|reflexivity]. }
    rewrite V. destruct (existsb (key_eqb (item_key it)) seen) eqn:S.
    + left. now apply seen_In.
    + right. exists it. split; [now left|reflexivity].
  - destruct (negb (Str.is_empty (name x)) && (0 <? price x)); [|now apply IH].
    destruct (existsb (key_eqb (item_key x)) seen); [now apply IH|].
    destruct (IH (item_key x :: seen) it H n p) as [[E|ins]|(kept & ink & E)].
    + right. exists x. split; [now left|exact E].
    + now left.
    + right. exists kept. split; [now right|exact E].
Qed.

Lemma dedup_fixed (its : list LineItem) :
  forall seen,
    Forall (fun it => name it <> "" /\ 0 < price it) its ->
    NoDup (List.map item_key its) ->
    (forall it, In it its -> ~ In (item_key it) seen) ->
    dedup its seen = its.
Proof.
  induction its as [|x its IH]; intros seen valid nodup fresh; [reflexivity|].
  cbn [dedup]. inversion valid as [|? ? [n p] valid']; subst.
  inversion nodup as [|? ? notin nodup']; subst.
  assert (negb (Str.is_empty (name x)) && (0 <? price x) = true) as V.
  { apply andb_true_intro. split; [|now apply Z.ltb_lt].
    destruct (name x); [now elim n|reflexivity]. }
  rewrite V.
  assert (existsb (key_eqb (item_key x)) seen = false) as S.
  { apply seen_not_In, fresh. now left. }
  rewrite S. f_equal. apply IH; auto.
  intros it init [E|ins].
  - apply notin. rewrite E. now apply in_map.
  - apply (fresh it); [now right|exact ins].
Qed.

(** Deduplication keeps, in their order, items that have a name and a
    positive price, no two with the same key (lower-cased name and price);
    every such item of the list has its key among the kept ones; and
    deduplicating again changes nothing. *)
Theorem dedup_distinct_valid (its : list LineItem) :
  Forall (fun it => name it <> "" /\ 0 < price it) (dedup its [])
  /\ NoDup (List.map item_key (dedup its []))
  /\ Order.subseq (dedup its []) its
  /\ (forall it, In it its -> name it <> "" -> 0 < price it ->
      exists kept, In kept (dedup its []) /\ item_key kept = item_key it)
  /\ dedup (dedup its []) [] = dedup its [].
Proof.
  assert (Forall (fun it => name it <> "" /\ 0 < price it) (dedup its [])) as valid.
  { apply Forall_forall. intros it H. apply dedup_In in H as (_ & n & p & _). auto. }
  split; [exact valid|]. split; [apply dedup_NoDup|]. split; [apply dedup_subseq|].
  split.
  - intros it H n p. destruct (dedup_complete its [] it H n p) as [[]|H']. exact H'.
  - apply dedup_fixed; [exact valid|apply dedup_NoDup|]. intros it _ [].
Qed.

(** ** Extracted items *)

Lemma int_nonneg (s : string) (z : Z) : Str.int s = Some z -> 0 <= z.
Proof.
  unfold Str.int. destruct (Str.is_empty s); [discriminate|]. cbn [orb].
  destruct (Str.forallb Chr.is_digit s) eqn:all; [|discriminate].
  cbn [negb]. intros H. injection H as <-. apply int_acc_nonneg; [exact all|lia].
Qed.

Lemma items_of_match_sound (groups : list string) (its : list LineItem) :
  items_of_match groups = Some its ->
  (List.length its <= 1)%nat /\ Forall Names.sound_item its.
Proof.
  unfold Names.sound_item.
  destruct groups as [|g0 [|g1 [|g2 [|g3 [|g4 groups]]]]]; cbn [items_of_match];
    try (intros H; injection H as <-; split; [cbn; lia|constructor]).
  - destruct (Str.int (Str.digits_only g1)) as [p|] eqn:P; [|discriminate].
    destruct ((1000 <? p) && (2 <? String.length (Str.strip g0))%nat) eqn:C;
      intros H; injection H as <-; (split; [cbn; lia|]); [|constructor].
    apply andb_prop in C as [C _]. apply Z.ltb_lt in C.
    constructor; [|constructor]. cbn. repeat split; [apply strip_trimmed|lia|lia].
  - destruct (Str.int g1) as [q|] eqn:Q; [|discriminate].
    destruct (Str.int (Str.digits_only g2)) as [p|] eqn:P; [|discriminate].
    destruct ((0 <? p) && (0 <? q)) eqn:C;
      intros H; injection H as <-; (split; [cbn; lia|]); [|constructor].
    apply andb_prop in C as [C _]. apply Z.ltb_lt in C. apply int_nonneg in Q.
    constructor; [|constructor]. cbn. repeat split; [apply strip_trimmed|lia|lia].
  - destruct (Str.int g1) as [q|] eqn:Q; [|discriminate].
    destruct (Str.int (Str.digits_only g2)) as [u|] eqn:U; [|discriminate].
    destruct (Str.int (Str.digits_only g3)) as [t|] eqn:T; [|discriminate].
    destruct (0 <? u) eqn:C; [|intros H; injection H as <-; split; [cbn; lia|constructor]].
    destruct (within_tolerance q u t) as [[|]|]; [| |discriminate];
      intros H; injection H as <-; (split; [cbn; lia|]); [|constructor].
    apply Z.ltb_lt in C. apply int_nonneg in Q.
    constructor; [|constructor]. cbn. repeat split; [apply strip_trimmed|lia|lia].
Qed.

Lemma items_of_line_sound (line : string) :
  (List.length (items_of_line line) <= 1)%nat /\ Forall Names.sound_item (items_of_line line).
Proof.
  unfold items_of_line. destruct (Re.found header_words line);
    [split; [cbn; lia|constructor]|].
  induction item_patterns as [|p pats IH]; cbn [items_scan_line];
    [split; [cbn; lia|constructor]|].
  destruct (Re.search p line) as [groups|]; [|exact IH].
  destruct (items_of_match groups) as [its|] eqn:M; [|exact IH].
  now apply items_of_match_sound in M.
Qed.

Lemma flat_map_items_sound (lines : list string) :
  (List.length (flat_map items_of_line lines) <= List.length lines)%nat
  /\ Forall Names.sound_item (flat_map items_of_line lines).
Proof.
  induction lines as [|line lines [len all]]; [split; [cbn; lia|constructor]|].
  cbn [flat_map]. destruct (items_of_line_sound line) as [one sound].
  rewrite List.length_app. split; [cbn [List.length]; lia|].
  apply Forall_app. split; assumption.
Qed.

Lemma subseq_length {A : Type} (l1 l2 : list A) :
  Order.subseq l1 l2 -> (List.length l1 <= List.length l2)%nat.
Proof. induction 1; cbn; lia. Qed.

Lemma subseq_In {A : Type} (l1 l2 : list A) (x : A) :
  Order.subseq l1 l2 -> In x l1 -> In x l2.
Proof.
  induction 1 as [|y l1 l2 _ IH|y l1 l2 _ IH]; intros H.
  - exact H.
  - right. now apply IH.
  - destruct H as [->|H]; [now left|right; now apply IH].
Qed.

Lemma NoDup_map_eq {A B : Type} (f : A -> B) (l : list A) (a b : A) :
  NoDup (List.map f l) -> In a l -> In b l -> f a = f b -> a = b.
Proof.
  induction l as [|x l IH]; intros nd ia ib E; [contradiction|].
  cbn in nd. inversion nd as [|? ? notin nd']; subst.
  destruct ia as [->|ia], ib as [->|ib]; auto.
  - elim notin. rewrite E. now apply in_map.
  - elim notin. rewrite <- E. now apply in_map.
Qed.

(** The items [extract_items_smart] returns: each has a non-empty name
    without white space around it, a positive price and a quantity that is
    not negative; there are at most as many as lines, a line giving at most
    one; and no two of them have the same price and names equal up to
    case. *)
Theorem extracted_items_sound (lines : list string) :
  Forall (fun it => name it <> "" /\ Order.trimmed (name it) = true
                    /\ 0 < price it /\ 0 <= quantity it)
    (extract_items_smart lines)
  /\ (List.length (extract_items_smart lines) <= List.length lines)%nat
  /\ (forall a b,
        In a (extract_items_smart lines) -> In b (extract_items_smart lines) ->
        Str.lower (name a) = Str.lower (name b) -> price a = price b -> a = b).
Proof.
  unfold extract_items_smart.
  destruct (flat_map_items_sound lines) as [len sound].
  pose proof (dedup_NoDup (flat_map items_of_line lines) []) as nodup.
  pose proof (dedup_subseq (flat_map items_of_line lines) []) as sub.
  split; [|split].
  - apply Forall_forall. intros it H.
    rewrite Forall_forall in sound.
    destruct (dedup_In _ _ _ H) as (_ & n & _).
    destruct (sound it (subseq_In _ _ _ sub H)) as (t & p & q). auto.
  - apply subseq_length in sub. lia.
  - intros a b ia ib En Ep. apply (NoDup_map_eq item_key _ a b nodup ia ib).
    unfold item_key. now rewrite En, Ep.
Qed.

(** ** Confidence of a parse *)

Lemma confidence_as_sum (p : parsed) (raw : string) :
  calculate_confidence p raw
  = Scoring.weighted_sum (Scoring.has_merchant p) (Scoring.has_total p)
      (Scoring.has_named_item p) (Scoring.long_text raw).
Proof.
  unfold calculate_confidence, Scoring.weighted_sum, Scoring.has_merchant,
    Scoring.has_total, Scoring.has_named_item, Scoring.long_text.
  rewrite named_item_test.
  destruct (negb (Str.is_empty (merchantName p)));
    destruct (0 <? total p);
    destruct (existsb _ (items p));
    destruct (50 <? String.length raw)%nat;
    vm_compute; reflexivity.
Qed.

Lemma named_item_iff_extracted (found_items : list LineItem) :
  Forall (fun it => name it <> "") found_items ->
  existsb (fun it => negb (Str.is_empty (name it)))
    (match found_items with [] => [placeholder] | _ => found_items end)
  = negb (match found_items with [] => true | _ => false end).
Proof.
  intros named. destruct found_items as [|it its]; [reflexivity|].
  inversion named as [|? ? n _]; subst. cbn.
  destruct (name it); [now elim n|reflexivity].
Qed.

(** The confidence of a parse is the capped sum of 0.25 when a merchant
    name was found, 0.35 when the total is positive, 0.25 when item
    extraction returned an item (the placeholder does not count), and 0.15
    when the text is longer than 50 characters; the date plays no part. *)
Theorem parse_confidence (today text : string) :
  confidence (smart_parse_receipt today text)
  = Scoring.weighted_sum
      (negb (Str.is_empty (extract_merchant (split_lines text))))
      (0 <? extract_total (split_lines text))
      (negb (match extract_items_smart (split_lines text) with
             | [] => true | _ => false end))
      (50 <? String.length text)%nat.
Proof.
  unfold smart_parse_receipt. cbn [confidence].
  rewrite confidence_as_sum.
  unfold Scoring.has_merchant, Scoring.has_total, Scoring.has_named_item,
    Scoring.long_text. cbn [merchantName total items].
  rewrite named_item_iff_extracted; [reflexivity|].
  apply Forall_forall. intros it H. unfold extract_items_smart in H.
  now apply dedup_In in H as (_ & n & _).
Qed.

(** ** Recognition passes *)

Lemma candidate_inv (text : string) (tag : Recognizer.source) (r : string * Recognizer.source) :
  In r (Recognizer.candidate text tag) ->
  r = (Str.strip text, tag) /\ Str.strip text <> "".
Proof.
  unfold Recognizer.candidate. destruct (Str.strip text) eqn:E; cbn; [contradiction|].
  intros [<-|[]]. split; [reflexivity|discriminate].
Qed.

Lemma max_by_len_In (rest : list (string * Recognizer.source)) :
  forall best, In (Recognizer.max_by_len best rest) (best :: rest).
Proof.
  induction rest as [|x rest IH]; intros best; [now left|].
  cbn [Recognizer.max_by_len].
  destruct (String.length (fst best) <? String.length (fst x))%nat.
  - right. apply IH.
  - destruct (IH best) as [E|H]; [left; exact E|right; right; exact H].
Qed.

Lemma max_by_len_longest (rest : list (string * Recognizer.source)) :
  forall best x,
    In x (best :: rest) ->
    (String.length (fst x) <= String.length (fst (Recognizer.max_by_len best rest)))%nat.
Proof.
  induction rest as [|y rest IH]; intros best x H.
  - destruct H as [<-|[]]. cbn. lia.
  - cbn [Recognizer.max_by_len].
    destruct (String.length (fst best) <? String.length (fst y))%nat eqn:E.
    + apply Nat.ltb_lt in E. destruct H as [<-|H].
      * pose proof (IH y y (or_introl eq_refl)). lia.
      * now apply IH.
    + apply Nat.ltb_ge in E. destruct H as [<-|[<-|H]].
      * apply IH. now left.
      * pose proof (IH best best (or_introl eq_refl)). lia.
      * apply IH. now right.
Qed.

Lemma max_by_len_keep (rest : list (string * Recognizer.source)) :
  forall best,
    Forall (fun y => (String.length (fst y) <= String.length (fst best))%nat) rest ->
    Recognizer.max_by_len best rest = best.
Proof.
  induction rest as [|y rest IH]; intros best H; [reflexivity|].
  inversion H as [|? ? le H']; subst. cbn [Recognizer.max_by_len].
  apply Nat.ltb_ge in le. rewrite le. now apply IH.
Qed.

Lemma max_by_len_first_longest (x : string * Recognizer.source)
    (after before : list (string * Recognizer.source)) :
  forall best,
    (String.length (fst best) < String.length (fst x))%nat ->
    Forall (fun y => (String.length (fst y) < String.length (fst x))%nat) before ->
    Forall (fun y => (String.length (fst y) <= String.length (fst x))%nat) after ->
    Recognizer.max_by_len best (before ++ x :: after) = x.
Proof.
  induction before as [|b before IH]; intros best lt Hb Ha.
  - cbn [app Recognizer.max_by_len]. apply Nat.ltb_lt in lt. rewrite lt.
    now apply max_by_len_keep.
  - inversion Hb as [|? ? ltb Hb']; subst. cbn [app Recognizer.max_by_len].
    destruct (String.length (fst best) <? String.length (fst b))%nat; now apply IH.
Qed.

Section RecognizerFacts.

Variable image_t : Type.
Variable enhance_image : image_t -> image_t.
Variable image_to_string : image_t -> string -> option string.

Let results := Recognizer.results image_t enhance_image image_to_string.
Let extract_text := Recognizer.extract_text_multiple_configs image_t enhance_image image_to_string.

(** Every candidate is the stripped, non-empty text of a recognition call
    that returned, on the enhanced image, or on the original one with the
    first configuration. *)
Lemma passes_inv (image enhanced : image_t) (cfgs : list string) :
  forall i r,
    In r (Recognizer.passes image_t image_to_string image enhanced i cfgs) ->
    fst r <> ""
    /\ exists img config text,
         In config cfgs /\ image_to_string img config = Some text
         /\ fst r = Str.strip text
         /\ ((img = enhanced /\ exists n, snd r = Recognizer.enhanced_config n /\ (i < n)%nat)
             \/ (img = image /\ snd r = Recognizer.original_config_1 /\ i = 0%nat
                 /\ exists first, image_to_string enhanced config = Some first)).
Proof.
  induction cfgs as [|config cfgs IH]; intros i r H; [contradiction|].
  cbn [Recognizer.passes] in H. apply in_app_or in H as [H|H].
  - unfold Recognizer.pass in H.
    destruct (image_to_string enhanced config) as [text|] eqn:E; [|contradiction].
    apply in_app_or in H as [H|H].
    + apply candidate_inv in H as [-> ne]. split; [exact ne|].
      exists enhanced, config, text. repeat split; [now left|exact E|].
      left. split; [reflexivity|]. exists (S i). split; [reflexivity|lia].
    + destruct (i =? 0)%nat eqn:Z; [|contradiction]. apply Nat.eqb_eq in Z.
      destruct (image_to_string image config) as [orig|] eqn:O; [|contradiction].
      apply candidate_inv in H as [-> ne]. split; [exact ne|].
      exists image, config, orig. repeat split; [now left|exact O|].
      right. repeat split; auto. now exists text.
  - destruct (IH _ _ H) as (ne & img & cfg & text & inc & E & Et & from).
    split; [exact ne|]. exists img, cfg, text.
    repeat split; [now right|exact E|exact Et|].
    destruct from as [(-> & n & Etag & lt)|(_ & _ & Z & _)]; [|discriminate].
    left. split; [reflexivity|]. exists n. split; [exact Etag|lia].
Qed.

(** The recognized text is empty exactly when no pass gave a text that is
    not blank. Otherwise it is one of the candidates, at least as long as
    each of them; it is the stripped output of a recognition call, so it has
    no white space around it. *)
Theorem recognized_text_longest (image : image_t) :
  (extract_text image = "" <-> results image = [])
  /\ (results image <> [] ->
      (exists tag, In (extract_text image, tag) (results image))
      /\ Order.trimmed (extract_text image) = true
      /\ exists img config text,
           In config Recognizer.configs
           /\ image_to_string img config = Some text
           /\ extract_text image = Str.strip text)
  /\ (forall r, In r (results image) ->
      (String.length (fst r) <= String.length (extract_text image))%nat).
Proof.
  unfold extract_text, Recognizer.extract_text_multiple_configs.
  fold (results image).
  assert (inv : forall r, In r (results image) ->
            fst r <> ""
            /\ exists img config text,
                 In config Recognizer.configs
                 /\ image_to_string img config = Some text
                 /\ fst r = Str.strip text).
  { intros r H. apply passes_inv in H as (ne & img & cfg & text & inc & E & Et & _).
    split; [exact ne|]. now exists img, cfg, text. }
  destruct (results image) as [|first rest] eqn:R.
  - split; [split; reflexivity|]. split; [intros H; now elim H|]. intros r [].
  - pose proof (max_by_len_In rest first) as inmax.
    destruct (inv _ inmax) as (ne & img & cfg & text & inc & E & Et).
    split; [split; [intros H; now elim ne|discriminate]|].
    split.
    + intros _. split; [|split].
      * exists (snd (Recognizer.max_by_len first rest)).
        now rewrite <- surjective_pairing.
      * rewrite Et. apply strip_trimmed.
      * now exists img, cfg, text.
    + intros r H. now apply max_by_len_longest.
Qed.

(** Among candidates of the greatest length the earliest wins: a candidate
    longer than all before it and at least as long as all after it is the
    result. *)
Theorem recognized_text_first_longest
    (image : image_t) (before after : list (string * Recognizer.source))
    (x : string * Recognizer.source) :
  results image = (before ++ x :: after)%list ->
  Forall (fun y => (String.length (fst y) < String.length (fst x))%nat) before ->
  Forall (fun y => (String.length (fst y) <= String.length (fst x))%nat) after ->
  extract_text image = fst x.
Proof.
  unfold extract_text, Recognizer.extract_text_multiple_configs.
  fold (results image). intros -> Hb Ha.
  destruct before as [|b before]; cbn [app].
  - now rewrite max_by_len_keep.
  - inversion Hb as [|? ? lt Hb']; subst. now rewrite max_by_len_first_longest.
Qed.

(** The two calls of the first configuration share one [try]: when the call
    on the enhanced image raises, the original image is not read at all,
    and no candidate comes from it. *)
Theorem first_pass_failure_skips_original (image : image_t) :
  image_to_string (enhance_image image) (hd "" Recognizer.configs) = None ->
  results image
  = Recognizer.passes image_t image_to_string image (enhance_image image) 1
      (tl Recognizer.configs)
  /\ Forall (fun r => snd r <> Recognizer.original_config_1) (results image).
Proof.
  intros failed.
  assert (results image
          = Recognizer.passes image_t image_to_string image (enhance_image image) 1
              (tl Recognizer.configs)) as E.
  { unfold results, Recognizer.results.
    change Recognizer.configs
      with (hd "" Recognizer.configs :: tl Recognizer.configs) at 1.
    cbn [Recognizer.passes]. unfold Recognizer.pass. now rewrite failed. }
  split; [exact E|]. rewrite E. apply Forall_forall. intros r H.
  apply passes_inv in H as (_ & img & cfg & text & _ & _ & _ & from).
  destruct from as [(_ & n & -> & _)|(_ & _ & Z & _)]; [discriminate|discriminate].
Qed.

End RecognizerFacts.

(** Three candidates, "Toko", "Toko Maju" and "Maju Toko": the first of the
    two longest is returned. *)
Lemma recognized_text_first_longest_witness :
  Recognizer.extract_text_multiple_configs unit Samples.enhance_image
    Samples.image_to_string tt = "Toko Maju".
Proof.
  apply (recognized_text_first_longest unit Samples.enhance_image
           Samples.image_to_string tt
           [("Toko", Recognizer.enhanced_config 2)]
           [("Maju Toko", Recognizer.enhanced_config 4)]
           ("Toko Maju", Recognizer.enhanced_config 3)).
  - vm_compute. reflexivity.
  - repeat constructor.
  - repeat constructor.
Defined.

(** The sample engine fails on the first configuration. *)
Lemma first_pass_failure_skips_original_witness :
  Forall (fun r => snd r <> Recognizer.original_config_1)
    (Recognizer.results unit Samples.enhance_image Samples.image_to_string tt).
Proof.
  apply (first_pass_failure_skips_original unit Samples.enhance_image
           Samples.image_to_string tt).
  vm_compute. reflexivity.
Defined.

(** ** Upscaling *)

(** Every height from 1 to 999, tried. *)
Lemma heights_checked :
  forallb (fun n =>
             match Upscale.scale_factor (Z.of_nat n) with
             | Some sf =>
                 match Upscale.scaled (Z.of_nat n) sf with
                 | Some h => (h =? 1000) || (h =? 999)
                 | None => false
                 end
             | None => false
             end) (seq 1 999) = true.
Proof. vm_compute. reflexivity. Qed.

(** An image lower than 1000 pixels is resized to the height
    [int(height * (1000 / height))], which is 1000 or, when the float
    product falls just short, 999; never less, never more. An image of
    1000 pixels or more is left as it is, and height 0 makes the step
    raise. *)
Theorem upscaled_height (height width : Z) :
  1 <= height < 1000 ->
  (exists sf new_height,
     Upscale.scale_factor height = Some sf
     /\ Upscale.scaled height sf = Some new_height
     /\ (new_height = 1000 \/ new_height = 999)
     /\ Upscale.upscale height width
        = match Upscale.scaled width sf with
          | Some new_width => Upscale.resize_to new_width new_height
          | None => Upscale.fault
          end)
  /\ Upscale.upscale 0 width = Upscale.fault
  /\ (forall tall, 1000 <= tall -> Upscale.upscale tall width = Upscale.keep_size).
Proof.
  intros range. split; [|split].
  - pose proof heights_checked as H. rewrite forallb_forall in H.
    specialize (H (Z.to_nat height)). rewrite Z2Nat.id in H by lia.
    assert (In (Z.to_nat height) (seq 1 999)) as inr by (apply in_seq; lia).
    specialize (H inr).
    destruct (Upscale.scale_factor height) as [sf|] eqn:S; [|discriminate].
    destruct (Upscale.scaled height sf) as [h|] eqn:N; [|discriminate].
    exists sf, h. repeat split; auto.
    + apply orb_prop in H as [E|E]; apply Z.eqb_eq in E; auto.
    + unfold Upscale.upscale. rewrite S, N.
      destruct (height <? 1000) eqn:L; [reflexivity|]. apply Z.ltb_ge in L. lia.
  - reflexivity.
  - intros tall big. unfold Upscale.upscale.
    destruct (tall <? 1000) eqn:L; [apply Z.ltb_lt in L; lia|reflexivity].
Qed.

(** Height 19 comes out at 999, height 500 at 1000. *)
Lemma upscaled_height_witness :
  Upscale.upscale 19 100 = Upscale.resize_to 5263 999
  /\ Upscale.upscale 500 333 = Upscale.resize_to 666 1000.
Proof.
  destruct (upscaled_height 19 100) as ((sf & h & S & N & _ & U) & _); [lia|].
  destruct (upscaled_height 500 333) as ((sf' & h' & S' & N' & _ & U') & _); [lia|].
  split.
  - rewrite U. vm_compute in S. injection S as <-. vm_compute in N.
    injection N as <-. vm_compute. reflexivity.
  - rewrite U'. vm_compute in S'. injection S' as <-. vm_compute in N'.
    injection N' as <-. vm_compute. reflexivity.
Defined.

(** ** The request handler *)

Lemma extract_text_stripped (image_t : Type) (enhance_image : image_t -> image_t)
    (image_to_string : image_t -> string -> option string) (image : image_t) :
  Recognizer.extract_text_multiple_configs image_t enhance_image image_to_string image = ""
  \/ exists img config text,
       In config Recognizer.configs
       /\ image_to_string img config = Some text
       /\ Recognizer.extract_text_multiple_configs image_t enhance_image
            image_to_string image = Str.strip text.
Proof.
  unfold Recognizer.extract_text_multiple_configs.
  destruct (Recognizer.results image_t enhance_image image_to_string image)
    as [|first rest] eqn:R; [left; reflexivity|].
  right. pose proof (max_by_len_In rest first) as H. rewrite <- R in H.
  apply passes_inv in H as (_ & img & cfg & text & inc & E & Et & _).
  now exists img, cfg, text.
Qed.

Section HandlerFacts.

Variable image_t : Type.
Variable enhance_image : image_t -> image_t.
Variable image_to_string : image_t -> string -> option string.
Variable load : string -> option image_t.

Let scan := Handler.scan_receipt image_t enhance_image image_to_string load.
Let extract_text := Recognizer.extract_text_multiple_configs image_t enhance_image image_to_string.

(** A request is answered with a record only when a named file was
    uploaded, it could be read, and recognition gave a text that is not
    empty; the record is the parse of that text, which has no white space
    around it, and its items are not empty. When every recognition call
    fails or reads only blanks, a readable upload is refused as a bad
    request, not parsed. *)
Theorem scan_receipt_record (today : string) (upload : option (string * string)) :
  (forall data,
      scan today upload = Handler.ok data ->
      exists filename content image,
        upload = Some (filename, content) /\ filename <> ""
        /\ load content = Some image
        /\ raw_text data = extract_text image
        /\ raw_text data <> "" /\ Order.trimmed (raw_text data) = true
        /\ data = smart_parse_receipt today (raw_text data)
        /\ items data <> [])
  /\ ((forall img config,
          match image_to_string img config with
          | Some text => Str.strip text = ""
          | None => True
          end) ->
      forall filename content image,
        upload = Some (filename, content) -> filename <> "" ->
        load content = Some image ->
        scan today upload
        = Handler.bad_request
            "No text could be extracted from the image. Please try a clearer image.").
Proof.
  split.
  - intros data H. unfold scan, Handler.scan_receipt in H.
    destruct upload as [[filename content]|]; [|discriminate].
    destruct (Str.is_empty filename) eqn:F; [discriminate|].
    destruct (load content) as [image|] eqn:L; [|discriminate].
    fold (extract_text image) in H.
    destruct (Str.is_empty (extract_text image)) eqn:T; [discriminate|].
    injection H as <-. exists filename, content, image.
    assert (extract_text image <> "") as ne by (intros E; rewrite E in T; discriminate).
    repeat split; auto.
    + intros E. rewrite E in F. discriminate.
    + cbn [raw_text smart_parse_receipt].
      destruct (extract_text_stripped image_t enhance_image image_to_string image)
        as [E|(img & cfg & text & _ & _ & E)]; [now elim ne|].
      fold (extract_text image) in E. rewrite E. apply strip_trimmed.
    + apply placeholder_or_items.
  - intros blank filename content image -> named loaded.
    unfold scan, Handler.scan_receipt. rewrite loaded.
    destruct (Str.is_empty filename) eqn:F;
      [destruct filename; [now elim named|discriminate]|].
    destruct (extract_text_stripped image_t enhance_image image_to_string image)
      as [E|(img & cfg & text & _ & O & E)].
    + now rewrite E.
    + specialize (blank img cfg). rewrite O in blank. rewrite E, blank. reflexivity.
Qed.

End HandlerFacts.

(** With the sample engine an upload is parsed from "Toko Maju"; with an
    engine that reads blanks it is refused. *)
Lemma scan_receipt_record_witness :
  (exists filename content image,
      Some ("struk.jpg", "bytes") = Some (filename, content) /\ filename <> ""
      /\ Some tt = Some image
      /\ raw_text (smart_parse_receipt "2026-11-03" "Toko Maju")
         = Recognizer.extract_text_multiple_configs unit Samples.enhance_image
             Samples.image_to_string image
      /\ raw_text (smart_parse_receipt "2026-11-03" "Toko Maju") <> ""
      /\ Order.trimmed (raw_text (smart_parse_receipt "2026-11-03" "Toko Maju")) = true
      /\ smart_parse_receipt "2026-11-03" "Toko Maju"
         = smart_parse_receipt "2026-11-03"
             (raw_text (smart_parse_receipt "2026-11-03" "Toko Maju"))
      /\ items (smart_parse_receipt "2026-11-03" "Toko Maju") <> [])
  /\ Handler.scan_receipt unit Samples.enhance_image Samples.blank_to_string
       (fun _ => Some tt) "2026-11-03" (Some ("struk.jpg", "bytes"))
     = Handler.bad_request
         "No text could be extracted from the image. Please try a clearer image.".
Proof.
  split.
  - apply (proj1 (scan_receipt_record unit Samples.enhance_image Samples.image_to_string
                    (fun _ => Some tt) "2026-11-03" (Some ("struk.jpg", "bytes")))).
    vm_compute. reflexivity.
  - apply (proj2 (scan_receipt_record unit Samples.enhance_image Samples.blank_to_string
                    (fun _ => Some tt) "2026-11-03" (Some ("struk.jpg", "bytes")))
             (fun _ _ => eq_refl) "struk.jpg" "bytes" tt eq_refl);
      [discriminate|reflexivity].
Defined.
